(** * Task-extraction pipeline: extraction, normalization, QA,
      prioritization, save

    A shallow embedding of [orchestration/pipeline.py] and of the request
    handler of [api/main.py].  Python values are JSON-like trees, the
    relational store, the clock and the text-generation service form an
    explicit world, and every function of the pipeline is a computation in a
    state-and-exception monad that also records what it did. *)

From Stdlib Require Import String List ZArith Bool Lia.
Import ListNotations.
Local Open Scope string_scope.
Local Open Scope list_scope.

Set Warnings "-register-all".

(* ====================================================================== *)
(** ** Python values *)
(* ====================================================================== *)

(** What [json.loads] can produce, which is also everything the pipeline
    ever stores in its state: [None], booleans, numbers, strings, lists and
    dictionaries with string keys.  A dictionary keeps insertion order.
    Floats carry their literal, the pipeline never computes with them. *)
Inductive value : Type :=
| VNone
| VBool (b : bool)
| VInt (z : Z)
| VFloat (literal : string)
| VStr (s : string)
| VList (items : list value)
| VDict (entries : list (string * value)).

Definition dict := list (string * value).

Fixpoint dict_get (d : dict) (k : string) : option value :=
  match d with
  | [] => None
  | (k', v) :: rest => if String.eqb k' k then Some v else dict_get rest k
  end.

(** [d[k] = v]: an existing key keeps its position, a new key goes last. *)
Fixpoint dict_set (d : dict) (k : string) (v : value) : dict :=
  match d with
  | [] => [(k, v)]
  | (k', v') :: rest =>
      if String.eqb k' k then (k', v) :: rest else (k', v') :: dict_set rest k v
  end.

(** ** Exceptions *)

Inductive exn : Type :=
| JSONDecodeError                  (* json.loads on a reply that is not JSON *)
| KeyError (key : string)
| TypeError
| AttributeError
| OperationalError                 (* psycopg2: the store cannot be reached *)
| PromptError                      (* load_prompt: missing file or placeholder *)
| InvocationError                  (* llm.invoke raised *)
| GraphRecursionError              (* langgraph's recursion limit *)
| NameError (name : string)
| ProgrammingError                 (* psycopg2: a parameter it cannot adapt *)
| ValueError.                      (* psycopg2: a string parameter with a NUL *)

Inductive result (A : Type) : Type :=
| OK (a : A)
| Err (e : exn).
Arguments OK {A} a.
Arguments Err {A} e.

(** ** Operations of Python on values, with the exceptions they raise *)

(** [v[k]] for a string key [k]. *)
Definition py_getitem (v : value) (k : string) : result value :=
  match v with
  | VDict d => match dict_get d k with Some x => OK x | None => Err (KeyError k) end
  | _ => Err TypeError
  end.

(** [v[k] = x] for a string key [k]. *)
Definition py_setitem (v : value) (k : string) (x : value) : result value :=
  match v with
  | VDict d => OK (VDict (dict_set d k x))
  | _ => Err TypeError
  end.

(** [v.get(k, default)]; only dictionaries have the method. *)
Definition py_get (v : value) (k : string) (default : value) : result value :=
  match v with
  | VDict d => OK (match dict_get d k with Some x => x | None => default end)
  | _ => Err AttributeError
  end.

(** [v.append]: the attribute lookup, which fails on anything but a list. *)
Definition py_append_attr (v : value) : result (list value) :=
  match v with
  | VList l => OK l
  | _ => Err AttributeError
  end.

Definition is_substring (k s : string) : bool :=
  match String.index 0 k s with Some _ => true | None => false end.

(** [k in v] for a string [k]: key of a dictionary, element of a list,
    substring of a string; the other values are not containers. *)
Definition py_contains (k : string) (v : value) : result bool :=
  match v with
  | VDict d => OK (match dict_get d k with Some _ => true | None => false end)
  | VList l =>
      OK (existsb (fun x => match x with VStr s => String.eqb s k | _ => false end) l)
  | VStr s => OK (is_substring k s)
  | _ => Err TypeError
  end.

(** [v == 'lit'] for a string literal. *)
Definition py_eq_str (v : value) (lit : string) : bool :=
  match v with
  | VStr s => String.eqb s lit
  | _ => false
  end.

(* ====================================================================== *)
(** ** The relational store *)
(* ====================================================================== *)

(** A row maps column names to values, SQL NULL being [VNone]. *)
Definition row := dict.
Definition table := list row.

Record policy_row : Type := {
  policy_version_col : value;
  policy_data_col : value;
  policy_active : bool;
  effective_date : Z
}.

(** Modelled from the spec: the schema of the store is not part of the
    sources.  The tables and columns are the ones the queries of
    [pipeline.py] name; [tasks] receives one row per insert and [task_seq]
    is the generator behind [RETURNING task_id], which hands out a new
    identifier for every row.  [online] tells whether [psycopg2.connect]
    succeeds.  Constraints of the schema are not modelled. *)
Record store : Type := {
  participants : table;
  patients : table;
  task_categories : table;
  category_sla : table;
  task_policies : list policy_row;
  priority_weights_tbl : table;
  tasks : table;
  task_seq : Z;
  online : bool
}.

(** The world a run lives in: the store and the number of readings of the
    environment (clock, generation service) made so far. *)
Record world : Type := {
  db : store;
  ticks : nat
}.

(** The graph's nodes. *)
Inductive node : Type :=
| extraction | normalization | qa | prioritization | save | rejection.

Inductive query : Type :=
| QParticipants | QPatients | QCategories | QSlas | QPolicy | QWeights.

(** What a computation did, in order: the line a node prints when it
    starts, the queries and inserts it sent to the store, the calls to the
    generation service with the reply's text. *)
Inductive event : Type :=
| EvEnter (n : node)
| EvQuery (q : query)
| EvInsert (task_id : Z)
| EvInvoke (agent : node) (content : string)
| EvSaved (task_id : Z)
| EvRejected (reason : value).

(* ====================================================================== *)
(** ** The monad: state, exceptions, and a log *)
(* ====================================================================== *)

Definition M (A : Type) : Type := world -> result A * world * list event.

Definition ret {A} (a : A) : M A := fun w => (OK a, w, []).

Definition raise {A} (e : exn) : M A := fun w => (Err e, w, []).

Definition bind {A B} (m : M A) (f : A -> M B) : M B :=
  fun w =>
    match m w with
    | (OK a, w1, l1) =>
        match f a w1 with
        | (r, w2, l2) => (r, w2, l1 ++ l2)
        end
    | (Err e, w1, l1) => (Err e, w1, l1)
    end.

Definition lift {A} (r : result A) : M A := fun w => (r, w, []).

Definition emit (e : event) : M unit := fun w => (OK tt, w, [e]).

Definition get_db : M store := fun w => (OK (db w), w, []).

Definition put_db (s : store) : M unit :=
  fun w => (OK tt, {| db := s; ticks := ticks w |}, []).

(** One reading of the environment: returns the index of the reading. *)
Definition tick : M nat :=
  fun w => (OK (ticks w), {| db := db w; ticks := S (ticks w) |}, []).

Declare Scope pipeline_scope.
Delimit Scope pipeline_scope with pipeline.
Notation "x <- m ;; k" := (bind m (fun x => k))
  (at level 61, m at next level, right associativity) : pipeline_scope.
Notation "m ;;; k" := (bind m (fun _ => k))
  (at level 61, right associativity) : pipeline_scope.
Local Open Scope pipeline_scope.

Definition res_of {A} (x : result A * world * list event) : result A := fst (fst x).
Definition world_of {A} (x : result A * world * list event) : world := snd (fst x).
Definition log_of {A} (x : result A * world * list event) : list event := snd x.

(* ====================================================================== *)
(** ** The environment of a run *)
(* ====================================================================== *)

(** What the pipeline calls but does not define: the [json] module, the
    prompt templates on disk, the generation service and the clock.
    [load_prompt] receives the template's name and the keyword arguments of
    [template.format]; the service and the clock are indexed by the reading
    of the environment, so that two calls need not agree. *)
Record env : Type := {
  json_dumps : value -> string;
  json_loads : string -> option value;
  load_prompt : string -> list (string * string) -> result string;
  llm_invoke : nat -> string -> result string;
  utcnow_isoformat : nat -> string
}.

(* ====================================================================== *)
(** ** Database tools *)
(* ====================================================================== *)

Definition get_db_connection : M unit :=
  st <- get_db ;;
  if online st then ret tt else raise OperationalError.

Definition col (r : row) (c : string) : value :=
  match dict_get r c with Some v => v | None => VNone end.

Definition is_active (r : row) : bool :=
  match dict_get r "active" with Some (VBool true) => true | _ => false end.

(** [SELECT cols FROM t WHERE active = true], each row as a dictionary. *)
Definition select_active (cols : list string) (t : table) : list value :=
  map (fun r => VDict (map (fun c => (c, col r c)) cols)) (filter is_active t).

Definition sql_eq (a b : value) : bool :=
  match a, b with
  | VInt x, VInt y => Z.eqb x y
  | VStr x, VStr y => String.eqb x y
  | _, _ => false
  end.

(** [category_sla cs JOIN task_categories tc ON cs.category_id = tc.category_id] *)
Definition select_slas (cs tc : table) : list value :=
  flat_map (fun s =>
    flat_map (fun c =>
      if sql_eq (col s "category_id") (col c "category_id")
      then [VDict [("category_name", col c "category_name");
                   ("sla_hours", col s "sla_hours");
                   ("escalation_hours", col s "escalation_hours")]]
      else []) tc) cs.

Definition fetch_db_context : M value :=
  get_db_connection ;;;
  st <- get_db ;;
  emit (EvQuery QParticipants) ;;;
  let participants :=
    select_active ["participant_id"; "name"; "role"; "department"] (participants st) in
  emit (EvQuery QPatients) ;;;
  let patients :=
    select_active ["patient_id"; "name"; "mrn"; "high_acuity"; "critical_status"]
                  (patients st) in
  emit (EvQuery QCategories) ;;;
  let categories :=
    select_active ["category_id"; "category_name"; "description";
                   "requires_patient"; "requires_participant"] (task_categories st) in
  emit (EvQuery QSlas) ;;;
  let slas := select_slas (category_sla st) (task_categories st) in
  ret (VDict [("participants", VList participants);
              ("patients", VList patients);
              ("categories", VList categories);
              ("slas", VList slas)]).

(** [WHERE active = true ORDER BY effective_date DESC LIMIT 1]; which of
    several rows with the latest date is returned is up to the store, the
    model takes the first. *)
Fixpoint latest_active (l : list policy_row) : option policy_row :=
  match l with
  | [] => None
  | p :: rest =>
      if policy_active p then
        match latest_active rest with
        | Some q => if (effective_date p <? effective_date q)%Z then Some q else Some p
        | None => Some p
        end
      else latest_active rest
  end.

(** [{"policy_version": v, **data}] *)
Definition dict_unpack_onto (base : dict) (data : dict) : dict :=
  fold_left (fun acc kv => dict_set acc (fst kv) (snd kv)) data base.

Definition fetch_active_policy : M value :=
  get_db_connection ;;;
  st <- get_db ;;
  emit (EvQuery QPolicy) ;;;
  match latest_active (task_policies st) with
  | Some policy =>
      match policy_data_col policy with
      | VDict data =>
          ret (VDict (dict_unpack_onto [("policy_version", policy_version_col policy)] data))
      | _ => raise TypeError
      end
  | None => ret (VDict [("policy_version", VStr "none"); ("rules", VDict [])])
  end.

Definition fetch_priority_weights : M value :=
  get_db_connection ;;;
  st <- get_db ;;
  emit (EvQuery QWeights) ;;;
  ret (VList (select_active ["weight_name"; "weight_category"; "weight_value"; "description"]
                            (priority_weights_tbl st))).

Definition insert_task (r : row) (st : store) : store :=
  {| participants := participants st; patients := patients st;
     task_categories := task_categories st; category_sla := category_sla st;
     task_policies := task_policies st; priority_weights_tbl := priority_weights_tbl st;
     tasks := tasks st ++ [("task_id", VInt (task_seq st)) :: r];
     task_seq := (task_seq st + 1)%Z;
     online := online st |}.

(** The sixteen values of the INSERT, evaluated left to right before the
    statement is sent. *)
Definition task_row (task transcript_id : value) : result row :=
  match py_get task "participant_id" VNone with Err e => Err e | OK participant_id =>
  match py_get task "patient_id" VNone with Err e => Err e | OK patient_id =>
  match py_get task "category_id" VNone with Err e => Err e | OK category_id =>
  match py_getitem task "description" with Err e => Err e | OK description =>
  match py_get task "due_date" VNone with Err e => Err e | OK due_date =>
  match py_get task "enriched_fields" (VDict []) with Err e => Err e | OK ef0 =>
  match py_get ef0 "expected_completion_date" VNone with Err e => Err e | OK ecd =>
  match py_getitem task "priority_score" with Err e => Err e | OK priority_score =>
  match py_getitem task "priority_level" with Err e => Err e | OK priority_level =>
  match py_get task "source_spans" (VDict []) with Err e => Err e | OK source_spans =>
  match py_get task "enriched_fields" (VDict []) with Err e => Err e | OK enriched_fields =>
  match py_get task "score_breakdown" (VDict []) with Err e => Err e | OK score_breakdown =>
  match py_getitem task "lineage_metadata" with Err e => Err e | OK lineage_metadata =>
  match py_getitem task "qa_metadata" with Err e => Err e | OK qa_metadata =>
  match py_getitem task "prioritization_metadata" with Err e => Err e | OK prio_metadata =>
  OK [("transcript_id", transcript_id); ("participant_id", participant_id);
      ("patient_id", patient_id); ("category_id", category_id);
      ("description", description); ("due_date", due_date);
      ("expected_completion_date", ecd);
      ("priority_score", priority_score); ("priority_level", priority_level);
      ("source_spans", source_spans); ("enriched_fields", enriched_fields);
      ("score_breakdown", score_breakdown);
      ("lineage_metadata", lineage_metadata); ("qa_metadata", qa_metadata);
      ("prioritization_metadata", prio_metadata);
      ("status", VStr "pending")]
  end end end end end end end end end end end end end end end.

(** What [cursor.execute] does with a parameter before the statement is
    sent.  psycopg2 has adapters for [None], booleans, numbers and strings;
    it adapts a list element by element, as an array; it has none for a
    dictionary and raises [ProgrammingError]; and it refuses a string that
    contains a NUL character with [ValueError].  The first parameter that
    cannot be adapted decides the exception. *)
Definition has_nul (s : string) : bool :=
  existsb (fun c => Ascii.eqb c Ascii.zero) (list_ascii_of_string s).

Fixpoint adapt (v : value) : result unit :=
  match v with
  | VDict _ => Err ProgrammingError
  | VList items =>
      (fix adapt_items (l : list value) : result unit :=
         match l with
         | [] => OK tt
         | x :: rest =>
             match adapt x with
             | OK _ => adapt_items rest
             | Err e => Err e
             end
         end) items
  | VStr s => if has_nul s then Err ValueError else OK tt
  | VNone | VBool _ | VInt _ | VFloat _ => OK tt
  end.

Fixpoint adapt_all (vs : list value) : result unit :=
  match vs with
  | [] => OK tt
  | v :: rest =>
      match adapt v with
      | OK _ => adapt_all rest
      | Err e => Err e
      end
  end.

(** The parameters of the INSERT that are passed as they are; the other
    six are wrapped in [Json(...)], which serialises whatever it holds,
    and the last is the literal ['pending']. *)
Definition unwrapped_columns : list string :=
  ["transcript_id"; "participant_id"; "patient_id"; "category_id";
   "description"; "due_date"; "expected_completion_date";
   "priority_score"; "priority_level"].

Definition adapt_row (r : row) : result unit :=
  adapt_all (map (col r) unwrapped_columns).

(** The values of the INSERT as [cursor.execute] sends them: built first,
    adapted next. *)
Definition insert_values (task transcript_id : value) : result row :=
  match task_row task transcript_id with
  | OK r =>
      match adapt_row r with
      | OK _ => OK r
      | Err e => Err e
      end
  | Err e => Err e
  end.

(** Whether the store accepts a statement it received (column types,
    constraints) is not modelled: the schema is not part of the sources. *)
Definition save_task_to_db (task transcript_id : value) : M Z :=
  get_db_connection ;;;
  r <- lift (task_row task transcript_id) ;;
  lift (adapt_row r) ;;;
  st <- get_db ;;
  put_db (insert_task r st) ;;;
  emit (EvInsert (task_seq st)) ;;;
  ret (task_seq st).

(* ====================================================================== *)
(** ** Pipeline state *)
(* ====================================================================== *)

Inductive status_t : Type := pending | rejected | completed.

Definition status_eqb (a b : status_t) : bool :=
  match a, b with
  | pending, pending | rejected, rejected | completed, completed => true
  | _, _ => false
  end.

(** [PipelineState]; an [Optional] field holds [VNone] until it is set. *)
Record PipelineState : Type := {
  transcript : string;
  transcript_id : value;
  db_context : value;
  policy_snapshot : value;
  priority_weights : value;
  extracted_task : value;
  normalized_task : value;
  qa_result : value;
  final_task : value;
  rejection_reason : value;
  rejection_category : value;
  lineage_metadata : value;
  saved_task_id : value;
  status : status_t
}.

Definition set_extracted_task (v : value) (s : PipelineState) : PipelineState :=
  {| transcript := transcript s; transcript_id := transcript_id s;
     db_context := db_context s; policy_snapshot := policy_snapshot s;
     priority_weights := priority_weights s;
     extracted_task := v; normalized_task := normalized_task s;
     qa_result := qa_result s; final_task := final_task s;
     rejection_reason := rejection_reason s; rejection_category := rejection_category s;
     lineage_metadata := lineage_metadata s; saved_task_id := saved_task_id s;
     status := status s |}.

Definition set_normalized_task (v : value) (s : PipelineState) : PipelineState :=
  {| transcript := transcript s; transcript_id := transcript_id s;
     db_context := db_context s; policy_snapshot := policy_snapshot s;
     priority_weights := priority_weights s;
     extracted_task := extracted_task s; normalized_task := v;
     qa_result := qa_result s; final_task := final_task s;
     rejection_reason := rejection_reason s; rejection_category := rejection_category s;
     lineage_metadata := lineage_metadata s; saved_task_id := saved_task_id s;
     status := status s |}.

Definition set_qa_result (v : value) (s : PipelineState) : PipelineState :=
  {| transcript := transcript s; transcript_id := transcript_id s;
     db_context := db_context s; policy_snapshot := policy_snapshot s;
     priority_weights := priority_weights s;
     extracted_task := extracted_task s; normalized_task := normalized_task s;
     qa_result := v; final_task := final_task s;
     rejection_reason := rejection_reason s; rejection_category := rejection_category s;
     lineage_metadata := lineage_metadata s; saved_task_id := saved_task_id s;
     status := status s |}.

Definition set_final_task (v : value) (s : PipelineState) : PipelineState :=
  {| transcript := transcript s; transcript_id := transcript_id s;
     db_context := db_context s; policy_snapshot := policy_snapshot s;
     priority_weights := priority_weights s;
     extracted_task := extracted_task s; normalized_task := normalized_task s;
     qa_result := qa_result s; final_task := v;
     rejection_reason := rejection_reason s; rejection_category := rejection_category s;
     lineage_metadata := lineage_metadata s; saved_task_id := saved_task_id s;
     status := status s |}.

Definition set_rejection_reason (v : value) (s : PipelineState) : PipelineState :=
  {| transcript := transcript s; transcript_id := transcript_id s;
     db_context := db_context s; policy_snapshot := policy_snapshot s;
     priority_weights := priority_weights s;
     extracted_task := extracted_task s; normalized_task := normalized_task s;
     qa_result := qa_result s; final_task := final_task s;
     rejection_reason := v; rejection_category := rejection_category s;
     lineage_metadata := lineage_metadata s; saved_task_id := saved_task_id s;
     status := status s |}.

Definition set_rejection_category (v : value) (s : PipelineState) : PipelineState :=
  {| transcript := transcript s; transcript_id := transcript_id s;
     db_context := db_context s; policy_snapshot := policy_snapshot s;
     priority_weights := priority_weights s;
     extracted_task := extracted_task s; normalized_task := normalized_task s;
     qa_result := qa_result s; final_task := final_task s;
     rejection_reason := rejection_reason s; rejection_category := v;
     lineage_metadata := lineage_metadata s; saved_task_id := saved_task_id s;
     status := status s |}.

Definition set_saved_task_id (v : value) (s : PipelineState) : PipelineState :=
  {| transcript := transcript s; transcript_id := transcript_id s;
     db_context := db_context s; policy_snapshot := policy_snapshot s;
     priority_weights := priority_weights s;
     extracted_task := extracted_task s; normalized_task := normalized_task s;
     qa_result := qa_result s; final_task := final_task s;
     rejection_reason := rejection_reason s; rejection_category := rejection_category s;
     lineage_metadata := lineage_metadata s; saved_task_id := v;
     status := status s |}.

Definition set_status (v : status_t) (s : PipelineState) : PipelineState :=
  {| transcript := transcript s; transcript_id := transcript_id s;
     db_context := db_context s; policy_snapshot := policy_snapshot s;
     priority_weights := priority_weights s;
     extracted_task := extracted_task s; normalized_task := normalized_task s;
     qa_result := qa_result s; final_task := final_task s;
     rejection_reason := rejection_reason s; rejection_category := rejection_category s;
     lineage_metadata := lineage_metadata s; saved_task_id := saved_task_id s;
     status := v |}.

(* ====================================================================== *)
(** ** Agent nodes *)
(* ====================================================================== *)

Definition node_name (n : node) : string :=
  match n with
  | extraction => "extraction"
  | normalization => "normalization"
  | qa => "qa"
  | prioritization => "prioritization"
  | save => "save"
  | rejection => "rejection"
  end.

Section Pipeline.

Variable E : env.

(** [response = llm.invoke(messages)] followed by
    [json.loads(response.content)]. *)
Definition invoke_agent (agent : node) (prompt : string) : M value :=
  i <- tick ;;
  content <- lift (llm_invoke E i prompt) ;;
  emit (EvInvoke agent content) ;;;
  match json_loads E content with
  | Some v => ret v
  | None => raise JSONDecodeError
  end.

Definition lineage_entry (agent_name : string) (policy_version : value)
    (timestamp : string) : value :=
  VDict [("agent_name", VStr agent_name);
         ("agent_version", VStr "1.0.0");
         ("policy_version", policy_version);
         ("timestamp", VStr timestamp)].

(** [task['lineage_metadata']['processing_chain'].append({...})]: the
    target and its [append] are looked up first, then the entry is built,
    then the list inside [task] grows in place. *)
Definition append_lineage (agent : node) (state : PipelineState) (task : value)
    : M value :=
  lm <- lift (py_getitem task "lineage_metadata") ;;
  pc <- lift (py_getitem lm "processing_chain") ;;
  chain <- lift (py_append_attr pc) ;;
  pv <- lift (py_getitem (policy_snapshot state) "policy_version") ;;
  i <- tick ;;
  let entry := lineage_entry (node_name agent) pv (utcnow_isoformat E i) in
  lm' <- lift (py_setitem lm "processing_chain" (VList (chain ++ [entry]))) ;;
  lift (py_setitem task "lineage_metadata" lm').

Definition extraction_node (state : PipelineState) : M PipelineState :=
  emit (EvEnter extraction) ;;;
  prompt <- lift (load_prompt E "extraction"
              [("db_context", json_dumps E (db_context state));
               ("policy", json_dumps E (policy_snapshot state));
               ("transcript", transcript state)]) ;;
  extracted <- invoke_agent extraction prompt ;;
  has_lineage <- lift (py_contains "lineage_metadata" extracted) ;;
  extracted <- (if negb has_lineage
                then lift (py_setitem extracted "lineage_metadata"
                             (VDict [("processing_chain", VList [])]))
                else ret extracted) ;;
  extracted <- append_lineage extraction state extracted ;;
  ret (set_extracted_task extracted state).

Definition normalization_node (state : PipelineState) : M PipelineState :=
  emit (EvEnter normalization) ;;;
  prompt <- lift (load_prompt E "normalization"
              [("db_context", json_dumps E (db_context state));
               ("policy", json_dumps E (policy_snapshot state));
               ("extraction_output", json_dumps E (extracted_task state))]) ;;
  normalized <- invoke_agent normalization prompt ;;
  normalized <- append_lineage normalization state normalized ;;
  ret (set_normalized_task normalized state).

(** In the accepting branch [state['final_task']] is the very object that
    the QA reply holds under [validated_task] or, without that key, the
    object held by [state['normalized_task']]; storing [qa_metadata] in it
    is therefore seen through the other reference too. *)
Definition qa_node (state : PipelineState) : M PipelineState :=
  emit (EvEnter qa) ;;;
  prompt <- lift (load_prompt E "qa"
              [("db_context", json_dumps E (db_context state));
               ("policy", json_dumps E (policy_snapshot state));
               ("normalized_task", json_dumps E (normalized_task state))]) ;;
  qa_result <- invoke_agent qa prompt ;;
  let state := set_qa_result qa_result state in
  decision <- lift (py_get qa_result "qa_decision" VNone) ;;
  if py_eq_str decision "rejected" then
    reason <- lift (py_get qa_result "rejection_reason" VNone) ;;
    let state := set_rejection_reason reason state in
    category <- lift (py_get qa_result "rejection_category" VNone) ;;
    let state := set_rejection_category category state in
    ret (set_status rejected state)
  else
    final <- lift (py_get qa_result "validated_task" (normalized_task state)) ;;
    let state := set_final_task final state in
    metadata <- lift (py_get qa_result "qa_metadata" (VDict [])) ;;
    final <- lift (py_setitem final "qa_metadata" metadata) ;;
    has_validated <- lift (py_contains "validated_task" qa_result) ;;
    if has_validated then
      qa_result <- lift (py_setitem qa_result "validated_task" final) ;;
      ret (set_final_task final (set_qa_result qa_result state))
    else
      ret (set_final_task final (set_normalized_task final state)).

Definition prioritization_node (state : PipelineState) : M PipelineState :=
  emit (EvEnter prioritization) ;;;
  prompt <- lift (load_prompt E "prioritization"
              [("db_context", json_dumps E (db_context state));
               ("policy", json_dumps E (policy_snapshot state));
               ("priority_weights", json_dumps E (priority_weights state));
               ("validated_task", json_dumps E (final_task state))]) ;;
  prioritized <- invoke_agent prioritization prompt ;;
  let state := set_final_task prioritized state in
  ret (set_status completed state).

Definition save_node (state : PipelineState) : M PipelineState :=
  emit (EvEnter save) ;;;
  task_id <- save_task_to_db (final_task state) (transcript_id state) ;;
  let state := set_saved_task_id (VInt task_id) state in
  emit (EvSaved task_id) ;;;
  ret state.

Definition rejection_node (state : PipelineState) : M PipelineState :=
  emit (EvEnter rejection) ;;;
  emit (EvRejected (rejection_reason state)) ;;;
  ret state.

(** ** Conditional routing *)

Definition qa_router (state : PipelineState) : node :=
  if status_eqb (status state) rejected then rejection else prioritization.

(** ** Graph construction *)

(** The compiled graph: entry point, node functions, and for every node
    where control goes next ([None] is [END]). *)
Record graph : Type := {
  entry_point : node;
  node_fn : node -> PipelineState -> M PipelineState;
  next_node : node -> PipelineState -> option node
}.

Definition build_pipeline_graph : graph :=
  {| entry_point := extraction;
     node_fn := fun n =>
       match n with
       | extraction => extraction_node
       | normalization => normalization_node
       | qa => qa_node
       | prioritization => prioritization_node
       | save => save_node
       | rejection => rejection_node
       end;
     next_node := fun n state =>
       match n with
       | extraction => Some normalization
       | normalization => Some qa
       | qa => Some (qa_router state)
       | prioritization => Some save
       | save => None
       | rejection => None
       end |}.

(** langgraph runs the current node, follows its edge, and gives up after
    [recursion_limit] steps. *)
Definition recursion_limit : nat := 25.

Fixpoint run_from (g : graph) (fuel : nat) (n : node) (state : PipelineState)
    : M PipelineState :=
  match fuel with
  | O => raise GraphRecursionError
  | S fuel' =>
      state' <- node_fn g n state ;;
      match next_node g n state' with
      | None => ret state'
      | Some n' => run_from g fuel' n' state'
      end
  end.

Definition invoke (g : graph) (state : PipelineState) : M PipelineState :=
  run_from g recursion_limit (entry_point g) state.

(** ** Pipeline execution *)

Definition initial_state (transcript : string) (transcript_id : value)
    (db_context policy_snapshot priority_weights : value) : PipelineState :=
  {| transcript := transcript;
     transcript_id := transcript_id;
     db_context := db_context;
     policy_snapshot := policy_snapshot;
     priority_weights := priority_weights;
     extracted_task := VNone;
     normalized_task := VNone;
     qa_result := VNone;
     final_task := VNone;
     rejection_reason := VNone;
     rejection_category := VNone;
     lineage_metadata := VDict [];
     saved_task_id := VNone;
     status := pending |}.

Definition fetch_initial_state (transcript : string) (transcript_id : value)
    : M PipelineState :=
  db_context <- fetch_db_context ;;
  policy_snapshot <- fetch_active_policy ;;
  priority_weights <- fetch_priority_weights ;;
  ret (initial_state transcript transcript_id db_context policy_snapshot priority_weights).

Definition pipeline_result (final_state : PipelineState) : value :=
  if status_eqb (status final_state) rejected then
    VDict [("status", VStr "rejected");
           ("rejection_reason", rejection_reason final_state);
           ("rejection_category", rejection_category final_state)]
  else
    VDict [("status", VStr "completed");
           ("task_id", saved_task_id final_state);
           ("task", final_task final_state)].

Definition run_pipeline (transcript : string) (transcript_id : value) : M value :=
  initial_state <- fetch_initial_state transcript transcript_id ;;
  final_state <- invoke build_pipeline_graph initial_state ;;
  ret (pipeline_result final_state).

(* ====================================================================== *)
(** ** The request handler of the API *)
(* ====================================================================== *)

Inductive handler_outcome : Type :=
| Returns (body : value)
| ReturnsHTTPException (status_code : Z) (detail : value)
| Raises (e : exn).

(** [process_transcript].  The first [except] clause names
    [json.JSONDecodeError], and [main.py] never imports [json]: when an
    exception reaches the clause, evaluating that name raises [NameError]
    before either handler body can run. *)
Definition process_transcript (transcript : string) (transcript_id : value)
    (w : world) : handler_outcome * world * list event :=
  match run_pipeline transcript transcript_id w with
  | (OK result, w', l) =>
      match py_getitem result "status" with
      | OK st =>
          if py_eq_str st "rejected" then
            match py_getitem result "rejection_reason",
                  py_getitem result "rejection_category" with
            | OK reason, OK category =>
                (ReturnsHTTPException 422
                   (VDict [("status", VStr "rejected");
                           ("rejection_reason", reason);
                           ("rejection_category", category)]), w', l)
            | _, _ => (Raises (NameError "json"), w', l)
            end
          else
            match py_getitem result "task_id", py_getitem result "task" with
            | OK task_id, OK task =>
                (Returns (VDict [("status", VStr "completed");
                                 ("task_id", task_id);
                                 ("task", task)]), w', l)
            | _, _ => (Raises (NameError "json"), w', l)
            end
      | Err _ => (Raises (NameError "json"), w', l)
      end
  | (Err _, w', l) => (Raises (NameError "json"), w', l)
  end.

End Pipeline.

(* ====================================================================== *)
(** ** Vocabulary of the properties *)
(* ====================================================================== *)

(** The lineage chain a payload carries, when it has the expected shape. *)
Definition processing_chain (task : value) : option (list value) :=
  match task with
  | VDict d =>
      match dict_get d "lineage_metadata" with
      | Some (VDict lm) =>
          match dict_get lm "processing_chain" with
          | Some (VList c) => Some c
          | _ => None
          end
      | _ => None
      end
  | _ => None
  end.

(** The chain the extraction reply brings along: none at all when it has
    no [lineage_metadata]. *)
Definition carried_chain (reply : value) : option (list value) :=
  match reply with
  | VDict d =>
      match dict_get d "lineage_metadata" with
      | None => Some []
      | Some _ => processing_chain reply
      end
  | _ => None
  end.

(** Two dictionaries with the same fields, [k0] apart, which the second
    one has. *)
Definition same_fields_but (k0 : string) (a b : value) : Prop :=
  exists da db_,
    a = VDict da /\ b = VDict db_ /\
    dict_get db_ k0 <> None /\
    forall k, k <> k0 -> dict_get db_ k = dict_get da k.

Definition get_or (d : dict) (k : string) (default : value) : value :=
  match dict_get d k with Some x => x | None => default end.

Section Outcomes.

Variable E : env.

(** How a run of an agent node can end: before the service replied, with
    a reply that is not JSON, or with a parsed reply [v], in which case a
    state [s'] the node returns satisfies [ok v s']. *)
Definition agent_outcome (n : node) (ok : value -> PipelineState -> Prop)
    (r : result PipelineState) (l : list event) : Prop :=
  (l = [EvEnter n] /\ exists e, r = Err e) \/
  (exists c, l = [EvEnter n; EvInvoke n c] /\
     match json_loads E c with
     | None => r = Err JSONDecodeError
     | Some v => match r with OK s' => ok v s' | Err _ => True end
     end).

Definition extraction_ok (s : PipelineState) (v : value)
    (s' : PipelineState) : Prop :=
  exists c pv ts,
    carried_chain v = Some c /\
    py_getitem (policy_snapshot s) "policy_version" = OK pv /\
    s' = set_extracted_task (extracted_task s') s /\
    same_fields_but "lineage_metadata" v (extracted_task s') /\
    processing_chain (extracted_task s')
      = Some (c ++ [lineage_entry "extraction" pv ts]).

Definition normalization_ok (s : PipelineState) (v : value)
    (s' : PipelineState) : Prop :=
  exists c pv ts,
    processing_chain v = Some c /\
    py_getitem (policy_snapshot s) "policy_version" = OK pv /\
    s' = set_normalized_task (normalized_task s') s /\
    same_fields_but "lineage_metadata" v (normalized_task s') /\
    processing_chain (normalized_task s')
      = Some (c ++ [lineage_entry "normalization" pv ts]).

(** The state QA returns on a reply [VDict d] that rejects. *)
Definition qa_rejected_state (s : PipelineState) (d : dict) : PipelineState :=
  set_status rejected
    (set_rejection_category (get_or d "rejection_category" VNone)
       (set_rejection_reason (get_or d "rejection_reason" VNone)
          (set_qa_result (VDict d) s))).

(** The state QA returns on a reply [VDict d] that does not reject, [bd]
    being the fields of the payload it adopts. *)
Definition qa_accepted_state (s : PipelineState) (d bd : dict) : PipelineState :=
  let final := VDict (dict_set bd "qa_metadata" (get_or d "qa_metadata" (VDict []))) in
  match dict_get d "validated_task" with
  | Some _ =>
      set_final_task final
        (set_qa_result (VDict (dict_set d "validated_task" final))
           (set_final_task (VDict bd) (set_qa_result (VDict d) s)))
  | None =>
      set_final_task final
        (set_normalized_task final
           (set_final_task (VDict bd) (set_qa_result (VDict d) s)))
  end.

Definition qa_ok (s : PipelineState) (v : value) (s' : PipelineState) : Prop :=
  exists d, v = VDict d /\
    if py_eq_str (get_or d "qa_decision" VNone) "rejected"
    then s' = qa_rejected_state s d
    else exists bd,
           get_or d "validated_task" (normalized_task s) = VDict bd /\
           s' = qa_accepted_state s d bd.

Definition prioritization_ok (s : PipelineState) (v : value)
    (s' : PipelineState) : Prop :=
  s' = set_status completed (set_final_task v s).

End Outcomes.

(** ** Runs *)

Section Runs.

Variable E : env.

(** The three stages every run goes through, and what follows QA's
    verdict. *)
Definition stages_to_qa (s : PipelineState) : M PipelineState :=
  s1 <- extraction_node E s ;;
  s2 <- normalization_node E s1 ;;
  qa_node E s2.

Definition stages_after_qa (s : PipelineState) : M PipelineState :=
  if status_eqb (status s) rejected then rejection_node s
  else (s4 <- prioritization_node E s ;; save_node s4).

Definition run_to_qa (transcript : string) (transcript_id : value)
    : M PipelineState :=
  s0 <- fetch_initial_state transcript transcript_id ;;
  stages_to_qa s0.

(** QA's verdict, as the routing reads it from the recorded reply. *)
Definition qa_verdict (s : PipelineState) : value :=
  match qa_result s with
  | VDict d => get_or d "qa_decision" VNone
  | _ => VNone
  end.

(** Configurations of the graph a run from [s0] in world [w0] goes
    through: the node about to run, the state and the world it gets. *)
Inductive config_reachable (g : graph) (s0 : PipelineState) (w0 : world)
    : node -> PipelineState -> world -> Prop :=
| reach_entry : config_reachable g s0 w0 (entry_point g) s0 w0
| reach_step n s w s' w' l n' :
    config_reachable g s0 w0 n s w ->
    node_fn g n s w = (OK s', w', l) ->
    next_node g n s' = Some n' ->
    config_reachable g s0 w0 n' s' w'.

(** The states a run exhibits: the initial one and every state a node
    returns. *)
Definition run_state (g : graph) (s0 : PipelineState) (w0 : world)
    (s' : PipelineState) : Prop :=
  s' = s0 \/
  exists n s w w' l,
    config_reachable g s0 w0 n s w /\ node_fn g n s w = (OK s', w', l).

(** *** A store that changes under a run *)

(** A change of the grounding tables, the policies and the weights: it
    leaves the tasks, their identifier generator and the connection alone. *)
Definition grounding_only (f : store -> store) : Prop :=
  forall st, tasks (f st) = tasks st /\ task_seq (f st) = task_seq st /\
             online (f st) = online st.

Definition disturb (f : store -> store) : M unit :=
  fun w => (OK tt, {| db := f (db w); ticks := ticks w |}, []).

(** The graph run with the store changed by [changes k] before the node
    that runs with [k] steps left. *)
Fixpoint run_from_disturbed (g : graph) (changes : nat -> store -> store)
    (fuel : nat) (n : node) (state : PipelineState) : M PipelineState :=
  match fuel with
  | O => raise GraphRecursionError
  | S fuel' =>
      disturb (changes fuel') ;;;
      state' <- node_fn g n state ;;
      match next_node g n state' with
      | None => ret state'
      | Some n' => run_from_disturbed g changes fuel' n' state'
      end
  end.

Definition run_pipeline_disturbed (changes : nat -> store -> store)
    (transcript : string) (transcript_id : value) : M value :=
  initial_state <- fetch_initial_state transcript transcript_id ;;
  final_state <- run_from_disturbed (build_pipeline_graph E) changes recursion_limit
                   extraction initial_state ;;
  ret (pipeline_result final_state).

End Runs.

(** ** Outcomes of a run *)

Definition is_completed (r : result value) : Prop :=
  exists task_id task,
    r = OK (VDict [("status", VStr "completed");
                   ("task_id", VInt task_id);
                   ("task", task)]).

Definition is_rejected (r : result value) : Prop :=
  exists reason category,
    r = OK (VDict [("status", VStr "rejected");
                   ("rejection_reason", reason);
                   ("rejection_category", category)]).

Definition is_system_error (r : result value) : Prop :=
  exists e, r = Err e.

(** The policy a run works with when the store has no active one. *)
Definition no_policy : value :=
  VDict [("policy_version", VStr "none"); ("rules", VDict [])].

Definition fetch_events : list event :=
  map EvQuery [QParticipants; QPatients; QCategories; QSlas; QPolicy; QWeights].

(** ** The shape of a run's log *)

Definition agents : list node := [extraction; normalization; qa; prioritization].

(** The log of an agent node that got a reply. *)
Definition stage_log (nc : node * string) : list event :=
  [EvEnter (fst nc); EvInvoke (fst nc) (snd nc)].

Definition done_log (cs : list (node * string)) : list event :=
  flat_map stage_log cs.

Definition parsed (E : env) (nc : node * string) : Prop :=
  json_loads E (snd nc) <> None.

(** The ways a run of the pipeline on transcript identifier [tid] from
    world [w] can end, with the log of each: the context does not load; a
    stage fails after the stages [cs] before it returned; QA rejects; the
    save fails; the task is saved. *)
Inductive run_shape (E : env) (tid : value) (w : world)
    : result value -> world -> list event -> Prop :=
| shape_load_failed e k :
    run_shape E tid w (Err e) w (firstn k fetch_events)
| shape_stage_failed cs k n e tail w' :
    map fst cs = firstn k agents ->
    nth_error agents k = Some n ->
    Forall (parsed E) cs ->
    (tail = [EvEnter n] \/
     exists c, tail = [EvEnter n; EvInvoke n c] /\
               (json_loads E c = None -> e = JSONDecodeError)) ->
    db w' = db w ->
    run_shape E tid w (Err e) w' (fetch_events ++ done_log cs ++ tail)
| shape_rejected cs reason category w' :
    map fst cs = firstn 3 agents ->
    Forall (parsed E) cs ->
    db w' = db w ->
    run_shape E tid w
      (OK (VDict [("status", VStr "rejected");
                  ("rejection_reason", reason);
                  ("rejection_category", category)]))
      w' (fetch_events ++ done_log cs ++ [EvEnter rejection; EvRejected reason])
| shape_save_failed cs e w' :
    map fst cs = agents ->
    Forall (parsed E) cs ->
    db w' = db w ->
    run_shape E tid w (Err e) w' (fetch_events ++ done_log cs ++ [EvEnter save])
| shape_completed cs c task r w' :
    map fst cs = agents ->
    Forall (parsed E) cs ->
    nth_error cs 3 = Some (prioritization, c) ->
    json_loads E c = Some task ->
    insert_values task tid = OK r ->
    db w' = insert_task r (db w) ->
    run_shape E tid w
      (OK (VDict [("status", VStr "completed");
                  ("task_id", VInt (task_seq (db w)));
                  ("task", task)]))
      w' (fetch_events ++ done_log cs
            ++ [EvEnter save; EvInsert (task_seq (db w)); EvSaved (task_seq (db w))]).

(** ** Worlds that differ in the store *)

(** Stores with the same tasks, identifier generator and connection: they
    may differ in the grounding tables, the policies and the weights. *)
Definition same_tasks (a b : store) : Prop :=
  tasks a = tasks b /\ task_seq a = task_seq b /\ online a = online b.

(** Stores that may differ in everything. *)
Definition any_store (a b : store) : Prop := True.

(** Worlds at the same reading of the environment whose stores are
    related by [R]. *)
Definition sim (R : store -> store -> Prop) (w1 w2 : world) : Prop :=
  ticks w1 = ticks w2 /\ R (db w1) (db w2).

Definition sim_out {A} (R : store -> store -> Prop)
    (x y : result A * world * list event) : Prop :=
  res_of x = res_of y /\ log_of x = log_of y /\ sim R (world_of x) (world_of y).

(** A computation that cannot tell such worlds apart. *)
Definition respects {A} (R : store -> store -> Prop) (m : M A) : Prop :=
  forall w1 w2, sim R w1 w2 -> sim_out R (m w1) (m w2).

(* ====================================================================== *)
(** ** Sample stores, replies and environments *)
(* ====================================================================== *)

Module Sample.

Definition stamp : string := "2025-01-01T00:00:00".

Definition policy_v1 : policy_row :=
  {| policy_version_col := VStr "v1";
     policy_data_col := VDict [("rules", VDict [("max_due_days", VInt 30)])];
     policy_active := true;
     effective_date := 20240101 |}.

Definition retired_policy : policy_row :=
  {| policy_version_col := VStr "v0";
     policy_data_col := VDict [("rules", VDict [])];
     policy_active := false;
     effective_date := 20230101 |}.

Definition store_with (policies : list policy_row) : store :=
  {| participants :=
       [[("participant_id", VInt 1); ("name", VStr "Dr. Chen");
         ("role", VStr "physician"); ("department", VStr "cardiology");
         ("active", VBool true)]];
     patients :=
       [[("patient_id", VInt 1); ("name", VStr "Maria Garcia");
         ("mrn", VStr "MRN005678"); ("high_acuity", VBool false);
         ("critical_status", VBool false); ("active", VBool true)]];
     task_categories :=
       [[("category_id", VInt 1); ("category_name", VStr "medication_review");
         ("description", VStr "Review of medications");
         ("requires_patient", VBool true); ("requires_participant", VBool true);
         ("active", VBool true)]];
     category_sla :=
       [[("category_id", VInt 1); ("sla_hours", VInt 24);
         ("escalation_hours", VInt 48)]];
     task_policies := policies;
     priority_weights_tbl :=
       [[("weight_name", VStr "urgent_keyword"); ("weight_category", VStr "urgency");
         ("weight_value", VInt 30); ("description", VStr "ASAP or urgent");
         ("active", VBool true)]];
     tasks := [];
     task_seq := 1;
     online := true |}.

Definition world_v1 : world := {| db := store_with [retired_policy; policy_v1]; ticks := 0 |}.


Definition entry (agent version : string) : value :=
  lineage_entry agent (VStr version) stamp.

Definition extraction_reply : value :=
  VDict [("description", VStr "Review medications");
         ("participant_id", VInt 1);
         ("patient_id", VInt 1)].

(** A normalization reply that carries the extraction payload along. *)
Definition normalization_reply (version : string) : value :=
  VDict [("description", VStr "Review medications");
         ("participant_id", VInt 1);
         ("patient_id", VInt 1);
         ("category_id", VInt 1);
         ("due_date", VStr "2025-01-02");
         ("lineage_metadata",
          VDict [("processing_chain", VList [entry "extraction" version])])].

(** A normalization reply that carries nothing along. *)
Definition bare_normalization_reply : value :=
  VDict [("lineage_metadata", VDict [("processing_chain", VList [])])].

Definition qa_reject : value :=
  VDict [("qa_decision", VStr "rejected");
         ("rejection_reason", VStr "Missing task description");
         ("rejection_category", VStr "missing_data")].

Definition qa_accept_bare : value := VDict [("qa_decision", VStr "accepted")].

Definition qa_needs_review : value := VDict [("qa_decision", VStr "needs_review")].


(** A prioritization reply that carries the chain of the payload along. *)
Definition prioritization_reply (version : string) : value :=
  VDict [("description", VStr "Review medications");
         ("participant_id", VInt 1);
         ("patient_id", VInt 1);
         ("category_id", VInt 1);
         ("priority_score", VInt 87);
         ("priority_level", VStr "high");
         ("lineage_metadata",
          VDict [("processing_chain",
                  VList [entry "extraction" version; entry "normalization" version])]);
         ("qa_metadata", VDict []);
         ("prioritization_metadata", VDict [("weights_used", VInt 1)])].

(** A final task with every required key whose description is an object,
    not a string. *)
Definition unsendable_reply : value :=
  VDict [("description", VDict [("text", VStr "Review medications")]);
         ("priority_score", VInt 87);
         ("priority_level", VStr "high");
         ("lineage_metadata", VDict [("processing_chain", VList [])]);
         ("qa_metadata", VDict []);
         ("prioritization_metadata", VDict [])].

(** An environment whose service answers the prompt of each stage with a
    text named after the stage, which [json.loads] reads as [replies] say;
    a stage without an entry gets a reply that is not JSON. *)
Definition scripted (replies : list (string * value)) : env :=
  {| json_dumps := fun _ => "{}";
     json_loads := fun content => dict_get replies content;
     load_prompt := fun name _ => OK name;
     llm_invoke := fun _ prompt => OK prompt;
     utcnow_isoformat := fun _ => stamp |}.

Definition env_with (version : string) (qa_reply : value) : env :=
  scripted [("extraction", extraction_reply);
            ("normalization", normalization_reply version);
            ("qa", qa_reply);
            ("prioritization", prioritization_reply version)].

Definition env_lossy : env :=
  scripted [("extraction", extraction_reply);
            ("normalization", bare_normalization_reply);
            ("qa", qa_accept_bare);
            ("prioritization", prioritization_reply "v1")].


Definition transcript : string :=
  "Dr. Chen here. I need to review Maria Garcia's medications ASAP.".

(** An initial state with a policy of version v1, and the configuration a
    node leaves behind when it returns. *)
Definition s0 : PipelineState :=
  initial_state transcript VNone (VDict [])
    (VDict [("policy_version", VStr "v1"); ("rules", VDict [])]) (VList []).

Definition after (E : env) (n : node) (c : PipelineState * world)
    : PipelineState * world :=
  match node_fn (build_pipeline_graph E) n (fst c) (snd c) with
  | (OK s', w', _) => (s', w')
  | (Err _, _, _) => c
  end.

Definition at_normalization (E : env) : PipelineState * world :=
  after E extraction (s0, world_v1).

Definition at_qa (E : env) : PipelineState * world :=
  after E normalization (at_normalization E).

(** A change of the store that empties every table the context is
    loaded from. *)
Definition wipe_grounding (st : store) : store :=
  {| participants := []; patients := []; task_categories := [];
     category_sla := []; task_policies := []; priority_weights_tbl := [];
     tasks := tasks st; task_seq := task_seq st; online := online st |}.

Definition world_offline : world :=
  {| db := {| participants := []; patients := []; task_categories := [];
              category_sla := []; task_policies := [policy_v1];
              priority_weights_tbl := []; tasks := []; task_seq := 1;
              online := false |};
     ticks := 0 |}.

End Sample.

(** ** Invariants of a run *)

(** A state no stage has written to yet. *)
Definition fresh (s : PipelineState) : Prop :=
  final_task s = VNone /\ rejection_reason s = VNone /\
  rejection_category s = VNone /\ saved_task_id s = VNone /\ status s = pending.

(** What holds of the state a node receives in a run from [s0]. *)
Definition stage_inv (s0 : PipelineState) (n : node) (s : PipelineState) : Prop :=
  policy_snapshot s = policy_snapshot s0 /\
  match n with
  | extraction => s = s0
  | normalization => fresh s
  | qa => fresh s /\ exists bd, normalized_task s = VDict bd
  | prioritization =>
      rejection_reason s = VNone /\ rejection_category s = VNone /\
      saved_task_id s = VNone /\ status s = pending
  | save =>
      rejection_reason s = VNone /\ rejection_category s = VNone /\
      saved_task_id s = VNone /\ status s = completed
  | rejection =>
      final_task s = VNone /\ saved_task_id s = VNone /\ status s = rejected
  end.


(** What a stage's payload owes to the reply it was built from. *)
Definition stage_payload (E : env) (n : node) (s s' : PipelineState)
    (l : list event) : Prop :=
  match n with
  | extraction =>
      exists c v, l = [EvEnter n; EvInvoke n c] /\ json_loads E c = Some v /\
        same_fields_but "lineage_metadata" v (extracted_task s')
  | normalization =>
      exists c v, l = [EvEnter n; EvInvoke n c] /\ json_loads E c = Some v /\
        same_fields_but "lineage_metadata" v (normalized_task s')
  | qa =>
      exists c d, l = [EvEnter n; EvInvoke n c] /\ json_loads E c = Some (VDict d) /\
        if py_eq_str (get_or d "qa_decision" VNone) "rejected"
        then normalized_task s' = normalized_task s /\ final_task s' = final_task s
        else same_fields_but "qa_metadata"
               (get_or d "validated_task" (normalized_task s)) (final_task s')
  | prioritization =>
      exists c v, l = [EvEnter n; EvInvoke n c] /\ json_loads E c = Some v /\
        final_task s' = v
  | save => final_task s' = final_task s
  | rejection => s' = s
  end.

(** ** What a log tells about the nodes *)

(** The nodes a log shows entering, and the agents it shows calling the
    generation service, in order. *)
Definition entered (l : list event) : list node :=
  flat_map (fun e => match e with EvEnter n => [n] | _ => [] end) l.

Definition invoked (l : list event) : list node :=
  flat_map (fun e => match e with EvInvoke n _ => [n] | _ => [] end) l.

(** The keys [save_task_to_db] reads with [task[...]]. *)
Definition required_keys : list string :=
  ["description"; "priority_score"; "priority_level";
   "lineage_metadata"; "qa_metadata"; "prioritization_metadata"].

(** The value under [enriched_fields] is absent or a dictionary. *)
Definition enriched_fields_ok (d : dict) : Prop :=
  match dict_get d "enriched_fields" with
  | None | Some (VDict _) => True
  | Some _ => False
  end.

(* ====================================================================== *)
(** ** The test script *)
(* ====================================================================== *)

(** [test_pipeline.py].  The counters of [test_extraction]. *)
Record test_results : Type := {
  passed : nat;
  failed : nat;
  rejected_count : nat
}.

(** [f"{x:.2f}"] works on numbers, booleans included, and raises on
    anything else.  An integer is converted to a float first, rounding to
    nearest, which raises [OverflowError] from [2**1024 - 2**970] on. *)
Definition format_2f_ok (x : value) : bool :=
  match x with
  | VInt z => (Z.abs z <? 2 ^ 1024 - 2 ^ 970)%Z
  | VFloat _ | VBool _ => true
  | _ => false
  end.

Definition is_ok {A} (r : result A) : bool :=
  match r with OK _ => true | Err _ => false end.

(** The lines printed for a completed result; [false] when one of them
    raises. *)
Definition report_completed (res : value) : bool :=
  match py_getitem res "task_id", py_getitem res "task" with
  | OK _, OK task =>
      match py_getitem task "priority_level", py_getitem task "priority_score" with
      | OK _, OK score =>
          format_2f_ok score &&
          match py_get task "enriched_fields" (VDict []) with
          | OK fields => is_ok (py_get fields "category_name" (VStr "N/A"))
          | Err _ => false
          end
      | _, _ => false
      end
  | _, _ => false
  end.

Definition report_rejected (res : value) : bool :=
  is_ok (py_getitem res "rejection_reason") &&
  is_ok (py_getitem res "rejection_category").

Definition count_passed (c : test_results) : test_results :=
  {| passed := S (passed c); failed := failed c; rejected_count := rejected_count c |}.

Definition count_failed (c : test_results) : test_results :=
  {| passed := passed c; failed := S (failed c); rejected_count := rejected_count c |}.

Definition count_rejected (c : test_results) : test_results :=
  {| passed := passed c; failed := failed c; rejected_count := S (rejected_count c) |}.

(** The body of the loop: the [try] around one call of [run_pipeline]. *)
Definition test_case (E : env) (c : test_results) (transcript : string) (w : world)
    : test_results * world :=
  match run_pipeline E transcript VNone w with
  | (OK res, w', _) =>
      match py_getitem res "status" with
      | OK st =>
          if py_eq_str st "rejected" then
            ((if report_rejected res then count_rejected c else count_failed c), w')
          else if py_eq_str st "completed" then
            ((if report_completed res then count_passed c else count_failed c), w')
          else (c, w')
      | Err _ => (count_failed c, w')
      end
  | (Err _, w', _) => (count_failed c, w')
  end.

Fixpoint run_test_cases (E : env) (cases : list string) (c : test_results)
    (w : world) : test_results * world :=
  match cases with
  | [] => (c, w)
  | transcript :: rest =>
      let '(c', w') := test_case E c transcript w in
      run_test_cases E rest c' w'
  end.

Definition test_cases : list string :=
  ["Dr. Chen here. I need to review Maria Garcia's medications ASAP. Her MRN is MRN005678. She mentioned some side effects during her last visit. This is urgent and should be done by tomorrow.";
   "Mike Johnson speaking. We need to follow up on Robert Smith's lab results from yesterday. MRN009012. His potassium levels were critical. Please call him today.";
   "This is Emily Rodriguez. Can someone schedule a call with Jennifer Lee, MRN003456, to discuss her discharge plan? No rush, sometime this week is fine.";
   "Administrative note: We need to update the patient intake forms. This should be done by end of month.";
   "Someone needs to do something about that patient. You know who I mean."].

(** [test_extraction]: the exit code and the counters. *)
Definition test_extraction (E : env) (w : world) : Z * test_results * world :=
  let '(c, w') :=
    run_test_cases E test_cases
      {| passed := 0; failed := 0; rejected_count := 0 |} w in
  ((if Nat.eqb (failed c) 0 then 0 else 1)%Z, c, w').

(* ====================================================================== *)
(** ** Vocabulary of the further properties *)
(* ====================================================================== *)

(** [sum(results.values())], the total the summary prints. *)
Definition total (c : test_results) : nat :=
  passed c + failed c + rejected_count c.

(** The part of the state that is set when the run starts. *)
Definition same_inputs (s s' : PipelineState) : Prop :=
  transcript s' = transcript s /\ transcript_id s' = transcript_id s /\
  db_context s' = db_context s /\ policy_snapshot s' = policy_snapshot s /\
  priority_weights s' = priority_weights s /\
  lineage_metadata s' = lineage_metadata s.

(** A state that differs from [s] in the transcript alone. *)
Definition set_transcript (t : string) (s : PipelineState) : PipelineState :=
  {| transcript := t; transcript_id := transcript_id s;
     db_context := db_context s; policy_snapshot := policy_snapshot s;
     priority_weights := priority_weights s;
     extracted_task := extracted_task s; normalized_task := normalized_task s;
     qa_result := qa_result s; final_task := final_task s;
     rejection_reason := rejection_reason s; rejection_category := rejection_category s;
     lineage_metadata := lineage_metadata s; saved_task_id := saved_task_id s;
     status := status s |}.

(** The outcome of a computation with [f] applied to the state it returns. *)
Definition on_state (f : PipelineState -> PipelineState)
    (x : result PipelineState * world * list event)
    : result PipelineState * world * list event :=
  match x with
  | (OK s, w, l) => (OK (f s), w, l)
  | (Err e, w, l) => (Err e, w, l)
  end.

(* ====================================================================== *)
(** ** Reasoning about computations *)
(* ====================================================================== *)

Lemma bind_inv {A B} (m : M A) (f : A -> M B) w r w' l :
  bind m f w = (r, w', l) ->
  (exists e, m w = (Err e, w', l) /\ r = Err e) \/
  (exists a w1 l1 l2, m w = (OK a, w1, l1) /\ f a w1 = (r, w', l2) /\ l = l1 ++ l2).
Proof.
  unfold bind. destruct (m w) as [[[a | e] w1] l1].
  - destruct (f a w1) as [[r2 w2] l2] eqn:Hf. intros H. inversion H; subst.
    right. exists a, w1, l1, l2. auto.
  - intros H. inversion H; subst. left. exists e. auto.
Qed.

Lemma bind_assoc {A B C} (m : M A) (f : A -> M B) (g : B -> M C) w :
  bind (bind m f) g w = bind m (fun a => bind (f a) g) w.
Proof.
  unfold bind. destruct (m w) as [[[a | e] w1] l1]; [ | reflexivity ].
  destruct (f a w1) as [[[b | e] w2] l2]; [ | reflexivity ].
  destruct (g b w2) as [[r w3] l3]. now rewrite app_assoc.
Qed.

Lemma bind_ok {A B} (m : M A) (f : A -> M B) w a w1 l1 :
  m w = (OK a, w1, l1) ->
  bind m f w = (res_of (f a w1), world_of (f a w1), l1 ++ log_of (f a w1)).
Proof.
  intros H. unfold bind. rewrite H. now destruct (f a w1) as [[r w2] l2].
Qed.

Lemma triple_inv {A B C} (a a' : A) (b b' : B) (c c' : C) :
  (a, b, c) = (a', b', c') -> a = a' /\ b = b' /\ c = c'.
Proof. intros H. inversion H. auto. Qed.

(** Take a run apart, one primitive at a time. *)
Ltac prim_inv H :=
  apply triple_inv in H; destruct H as (? & ? & ?); subst.

Ltac minv :=
  repeat match goal with
  | H : bind _ _ _ = (_, _, _) |- _ =>
      apply bind_inv in H;
      destruct H as [(? & H & ?) | (? & ? & ? & ? & ? & H & ?)]; subst
  | H : lift _ _ = (_, _, _) |- _ => unfold lift in H; prim_inv H
  | H : ret _ _ = (_, _, _) |- _ => unfold ret in H; prim_inv H
  | H : raise _ _ = (_, _, _) |- _ => unfold raise in H; prim_inv H
  | H : emit _ _ = (_, _, _) |- _ => unfold emit in H; prim_inv H
  | H : tick _ = (_, _, _) |- _ => unfold tick in H; prim_inv H
  | H : get_db _ = (_, _, _) |- _ => unfold get_db in H; prim_inv H
  | H : put_db _ _ = (_, _, _) |- _ => unfold put_db in H; prim_inv H
  | H : (if ?b then _ else _) _ = (_, _, _) |- _ => destruct b eqn:?
  | H : match ?x with _ => _ end _ = (_, _, _) |- _ => destruct x eqn:?
  | H : OK _ = OK _ |- _ => inversion H; clear H; subst
  | H : Err _ = Err _ |- _ => inversion H; clear H; subst
  | H : OK _ = Err _ |- _ => discriminate H
  | H : Err _ = OK _ |- _ => discriminate H
  end.

(** Read a successful operation on a value back into the value's shape. *)
Ltac pyinv :=
  repeat match goal with
  | H : py_setitem ?x _ _ = OK _ |- _ =>
      is_var x; destruct x; simpl in H; try discriminate H; inversion H; subst; clear H
  | H : py_getitem ?x _ = OK _ |- _ =>
      is_var x; destruct x; simpl in H; try discriminate H
  | H : py_get ?x _ _ = OK _ |- _ =>
      is_var x; destruct x; simpl in H; try discriminate H; inversion H; subst; clear H
  | H : py_append_attr ?x = OK _ |- _ =>
      is_var x; destruct x; simpl in H; try discriminate H; inversion H; subst; clear H
  | H : py_getitem (VDict _) _ = OK _ |- _ => simpl in H
  | H : py_get (VDict _) _ _ = OK _ |- _ => simpl in H; inversion H; subst; clear H
  | H : py_setitem (VDict _) _ _ = OK _ |- _ => simpl in H; inversion H; subst; clear H
  | H : py_append_attr (VList _) = OK _ |- _ => simpl in H; inversion H; subst; clear H
  | H : match dict_get ?d ?k with Some _ => OK _ | None => Err _ end = OK _ |- _ =>
      destruct (dict_get d k) eqn:?; try discriminate H; inversion H; subst; clear H
  end.

(** ** Dictionaries *)

Lemma dict_get_set_same d k v : dict_get (dict_set d k v) k = Some v.
Proof.
  induction d as [ | [k' v'] d IH]; simpl.
  - now rewrite String.eqb_refl.
  - destruct (String.eqb k' k) eqn:Hk; simpl; rewrite Hk; auto.
Qed.

Lemma dict_get_set_other d k v k' :
  k' <> k -> dict_get (dict_set d k v) k' = dict_get d k'.
Proof.
  intros Hne. induction d as [ | [k0 v0] d IH]; simpl.
  - destruct (String.eqb_spec k k'); congruence.
  - destruct (String.eqb_spec k0 k); simpl.
    + subst. destruct (String.eqb_spec k k'); congruence.
    + now rewrite IH.
Qed.


(** ** The two building blocks of the agent nodes *)

Section NodeFacts.

Variable E : env.

Lemma invoke_agent_inv n p w r w' l :
  invoke_agent E n p w = (r, w', l) ->
  db w' = db w /\ ticks w' = S (ticks w) /\
  ((l = [] /\ exists e, r = Err e) \/
   (exists c, l = [EvInvoke n c] /\
      match json_loads E c with
      | None => r = Err JSONDecodeError
      | Some v => r = OK v
      end)).
Proof.
  unfold invoke_agent. intros H. minv; simpl; repeat split; eauto.
  - right. eexists. split; [reflexivity | ]. now rewrite Heqo.
  - right. eexists. split; [reflexivity | ]. now rewrite Heqo.
Qed.

Lemma append_lineage_inv n s task w r w' l :
  append_lineage E n s task w = (r, w', l) ->
  db w' = db w /\ l = [] /\
  forall t', r = OK t' ->
    exists d lm c pv,
      task = VDict d /\
      dict_get d "lineage_metadata" = Some (VDict lm) /\
      dict_get lm "processing_chain" = Some (VList c) /\
      py_getitem (policy_snapshot s) "policy_version" = OK pv /\
      t' = VDict (dict_set d "lineage_metadata"
             (VDict (dict_set lm "processing_chain"
                (VList (c ++ [lineage_entry (node_name n) pv
                                (utcnow_isoformat E (ticks w))]))))).
Proof.
  unfold append_lineage. intros H.
  minv; simpl; repeat split; auto; intros t' Ht; try discriminate Ht.
  pyinv.
  do 4 eexists. repeat split; eauto.
Qed.

End NodeFacts.

(** ** What each node does, whatever the outcome *)

Section NodeSpecs.
Variable E : env.
Ltac use_blocks :=
  repeat match goal with
  | H : invoke_agent _ _ _ _ = (_, _, _) |- _ =>
      apply invoke_agent_inv in H;
      destruct H as (? & ? & [(? & ? & ?) | (? & ? & ?)]); subst
  | H : append_lineage _ _ _ _ _ = (_, _, _) |- _ =>
      apply append_lineage_inv in H; destruct H as (? & ? & ?); subst
  end.

Lemma extraction_node_spec s w r w' l :
  extraction_node E s w = (r, w', l) ->
  db w' = db w /\ agent_outcome E extraction (extraction_ok s) r l.
Proof.
  unfold extraction_node. intros H. minv; use_blocks; simpl in *.
  all: split; [ congruence | ].
  all: try (left; split; [ reflexivity | eauto ]; fail).
  all: try discriminate.
  all: right; eexists; split; [ reflexivity | ].
  all: match goal with
       | H : match json_loads E ?c with _ => _ end |- _ =>
           destruct (json_loads E c) eqn:?; try discriminate H; try exact I; auto
       end.
  all: minv; try reflexivity.
  all: match goal with
       | H : forall t', OK ?t = OK t' -> _ |- _ =>
           destruct (H _ eq_refl) as (d & lm & c & pv & -> & Hd & Hlm & Hpv & ->); clear H
       end.
  - (* the reply had no lineage_metadata *)
    destruct v; simpl in *; try discriminate.
    repeat match goal with H : OK _ = OK _ |- _ => inversion H; subst; clear H end.
    match goal with H : negb _ = true |- _ => apply negb_true_iff in H end.
    destruct (dict_get entries "lineage_metadata") eqn:Hg; try discriminate.
    rewrite dict_get_set_same in Hd. inversion Hd; subst lm. simpl in Hlm.
    inversion Hlm; subst c.
    exists [], pv. eexists. simpl. rewrite Hg.
    split; [ reflexivity | ]. split; [ exact Hpv | ]. split; [ reflexivity | ].
    split.
    + exists entries. eexists. split; [ reflexivity | ]. split; [ reflexivity | ].
      split; [ rewrite dict_get_set_same; discriminate | ].
      intros k Hk. now rewrite !dict_get_set_other by auto.
    + rewrite dict_get_set_same. reflexivity.
  - (* the reply came with one *)
    exists c, pv. eexists. simpl. rewrite Hd, Hlm.
    split; [ reflexivity | ]. split; [ exact Hpv | ]. split; [ reflexivity | ].
    split.
    + exists d. eexists. split; [ reflexivity | ]. split; [ reflexivity | ].
      split; [ rewrite dict_get_set_same; discriminate | ].
      intros k Hk. now rewrite dict_get_set_other by auto.
    + rewrite !dict_get_set_same. reflexivity.
Qed.

Lemma normalization_node_spec s w r w' l :
  normalization_node E s w = (r, w', l) ->
  db w' = db w /\ agent_outcome E normalization (normalization_ok s) r l.
Proof.
  unfold normalization_node. intros H. minv; use_blocks; simpl in *.
  all: split; [ congruence | ].
  all: try (left; split; [ reflexivity | eauto ]; fail).
  all: try discriminate.
  all: right; eexists; split; [ reflexivity | ].
  all: match goal with
       | H : match json_loads E ?c with _ => _ end |- _ =>
           destruct (json_loads E c) eqn:?; try discriminate H; try exact I; auto
       end.
  all: minv; try reflexivity.
  match goal with
  | H : forall t', OK ?t = OK t' -> _ |- _ =>
      destruct (H _ eq_refl) as (d & lm & c & pv & -> & Hd & Hlm & Hpv & ->); clear H
  end.
  exists c, pv. eexists. simpl. rewrite Hd, Hlm.
  split; [ reflexivity | ]. split; [ exact Hpv | ]. split; [ reflexivity | ].
  split.
  - exists d. eexists. split; [ reflexivity | ]. split; [ reflexivity | ].
    split; [ rewrite dict_get_set_same; discriminate | ].
    intros k Hk. now rewrite dict_get_set_other by auto.
  - rewrite !dict_get_set_same. reflexivity.
Qed.

Lemma prioritization_node_spec s w r w' l :
  prioritization_node E s w = (r, w', l) ->
  db w' = db w /\ agent_outcome E prioritization (prioritization_ok s) r l.
Proof.
  unfold prioritization_node. intros H. minv; use_blocks; simpl in *.
  all: split; [ congruence | ].
  all: try (left; split; [ reflexivity | eauto ]; fail).
  all: try discriminate.
  all: right; eexists; split; [ reflexivity | ].
  all: match goal with
       | H : match json_loads E ?c with _ => _ end |- _ =>
           destruct (json_loads E c) eqn:?; try discriminate H; try exact I; auto
       end.
  all: minv; reflexivity.
Qed.

Lemma qa_node_spec s w r w' l :
  qa_node E s w = (r, w', l) ->
  db w' = db w /\ agent_outcome E qa (qa_ok s) r l.
Proof.
  unfold qa_node. intros H. minv; use_blocks; simpl in *.
  all: split; [ congruence | ].
  all: try (left; split; [ reflexivity | eauto ]; fail).
  all: try discriminate.
  all: right; eexists; split; [ reflexivity | ].
  all: match goal with
       | H : match json_loads E ?c with _ => _ end |- _ =>
           destruct (json_loads E c) eqn:?; try discriminate H; try exact I; auto
       end.
  all: minv; try reflexivity.
  all: destruct v as [ | | | | | | d]; simpl in *; try discriminate.
  all: repeat match goal with H : OK _ = OK _ |- _ => inversion H; subst; clear H end.
  all: exists d; split; [ reflexivity | ].
  all: unfold get_or at 1.
  all: match goal with H : py_eq_str _ _ = _ |- _ => rewrite H end.
  - reflexivity.
  - unfold get_or in *.
    destruct (dict_get d "validated_task") eqn:Hv; try discriminate.
    pyinv. eexists. split; [ reflexivity | ].
    unfold qa_accepted_state, get_or. now rewrite Hv.
  - unfold get_or in *.
    destruct (dict_get d "validated_task") eqn:Hv; try discriminate.
    destruct (normalized_task s) as [ | | | | | | bd] eqn:Hn; simpl in *;
      try discriminate.
    pyinv. exists bd. split; [ reflexivity | ].
    unfold qa_accepted_state, get_or. rewrite Hv.
    inversion H6; subst. reflexivity.
Qed.

Lemma insert_values_ok task tid r :
  insert_values task tid = OK r <-> task_row task tid = OK r /\ adapt_row r = OK tt.
Proof.
  unfold insert_values. split.
  - destruct (task_row task tid) as [r0 | e]; [ | discriminate ].
    destruct (adapt_row r0) as [[] | e] eqn:Ha; [ | discriminate ].
    intros H. inversion H; subst. auto.
  - intros [-> ->]. reflexivity.
Qed.

Lemma save_task_to_db_spec task tid w :
  save_task_to_db task tid w =
    if online (db w) then
      match insert_values task tid with
      | OK r =>
          (OK (task_seq (db w)),
           {| db := insert_task r (db w); ticks := ticks w |},
           [EvInsert (task_seq (db w))])
      | Err e => (Err e, w, [])
      end
    else (Err OperationalError, w, []).
Proof.
  unfold save_task_to_db, insert_values, get_db_connection, bind, get_db, put_db,
    emit, lift, ret, raise.
  destruct (online (db w)); simpl; [ | reflexivity ].
  destruct (task_row task tid) as [r | e]; [ | reflexivity ].
  destruct (adapt_row r) as [[] | e]; reflexivity.
Qed.

Lemma save_node_spec s w :
  save_node s w =
    if online (db w) then
      match insert_values (final_task s) (transcript_id s) with
      | OK r =>
          (OK (set_saved_task_id (VInt (task_seq (db w))) s),
           {| db := insert_task r (db w); ticks := ticks w |},
           [EvEnter save; EvInsert (task_seq (db w)); EvSaved (task_seq (db w))])
      | Err e => (Err e, w, [EvEnter save])
      end
    else (Err OperationalError, w, [EvEnter save]).
Proof.
  unfold save_node. unfold bind at 1. unfold emit at 1. unfold bind at 1.
  rewrite save_task_to_db_spec.
  destruct (online (db w)); simpl; [ | reflexivity ].
  destruct (insert_values (final_task s) (transcript_id s)); reflexivity.
Qed.

Lemma rejection_node_spec s w :
  rejection_node s w = (OK s, w, [EvEnter rejection; EvRejected (rejection_reason s)]).
Proof. reflexivity. Qed.

End NodeSpecs.

(* ====================================================================== *)
(** ** The shape of a run *)
(* ====================================================================== *)

Lemma bind_ret_r {A} (m : M A) w : bind m ret w = m w.
Proof.
  unfold bind, ret. destruct (m w) as [[[a | e] w1] l1]; [ | reflexivity ].
  now rewrite app_nil_r.
Qed.

Lemma bind_ext {A B} (m : M A) (f g : A -> M B) w :
  (forall a w1, f a w1 = g a w1) -> bind m f w = bind m g w.
Proof.
  intros H. unfold bind. destruct (m w) as [[[a | e] w1] l1]; [ | reflexivity ].
  now rewrite H.
Qed.

Section RunShape.

Variable E : env.

Lemma invoke_split s w :
  invoke (build_pipeline_graph E) s w = bind (stages_to_qa E s) (stages_after_qa E) w.
Proof.
  unfold invoke, stages_to_qa. simpl.
  rewrite !bind_assoc. apply bind_ext. intros s1 w1.
  rewrite !bind_assoc. apply bind_ext. intros s2 w2.
  apply bind_ext. intros s3 w3.
  unfold stages_after_qa, qa_router.
  destruct (status_eqb (status s3) rejected); simpl.
  - apply bind_ret_r.
  - apply bind_ext. intros s4 w4. apply bind_ret_r.
Qed.

Lemma run_pipeline_split t tid w :
  run_pipeline E t tid w =
  bind (run_to_qa E t tid)
       (fun sq => bind (stages_after_qa E sq) (fun sf => ret (pipeline_result sf))) w.
Proof.
  unfold run_pipeline, run_to_qa.
  rewrite bind_assoc. apply bind_ext. intros s0 w0.
  unfold bind at 1. rewrite invoke_split.
  rewrite <- bind_assoc. reflexivity.
Qed.

End RunShape.

(** Loading the context: the store is left as it is, and a successful
    load sent each query once. *)
Lemma fetch_active_policy_spec w :
  fetch_active_policy w =
    if online (db w) then
      match latest_active (task_policies (db w)) with
      | Some policy =>
          match policy_data_col policy with
          | VDict data =>
              (OK (VDict (dict_unpack_onto
                            [("policy_version", policy_version_col policy)] data)),
               w, [EvQuery QPolicy])
          | _ => (Err TypeError, w, [EvQuery QPolicy])
          end
      | None => (OK no_policy, w, [EvQuery QPolicy])
      end
    else (Err OperationalError, w, []).
Proof.
  unfold fetch_active_policy, get_db_connection, bind, get_db, emit, ret, raise.
  destruct (online (db w)); simpl; [ | reflexivity ].
  destruct (latest_active (task_policies (db w))) as [p | ]; [ | reflexivity ].
  destruct (policy_data_col p); reflexivity.
Qed.

Lemma fetch_initial_state_inv t tid w r w' l :
  fetch_initial_state t tid w = (r, w', l) ->
  w' = w /\
  match r with
  | OK s0 =>
      l = fetch_events /\ online (db w) = true /\
      exists dbc pol pw,
        s0 = initial_state t tid dbc pol pw /\
        fetch_active_policy w = (OK pol, w, [EvQuery QPolicy])
  | Err _ => exists k, l = firstn k fetch_events
  end.
Proof.
  intros H.
  unfold fetch_initial_state, fetch_db_context, fetch_priority_weights,
    get_db_connection in H.
  minv; try discriminate.
  all: try match goal with
       | H : fetch_active_policy ?w = _ |- _ =>
           pose proof H as Hpol; rewrite fetch_active_policy_spec in H;
           match type of H with
           | context [online (db ?w0)] =>
               destruct (online (db w0)) eqn:?; try discriminate;
               destruct (latest_active (task_policies (db w0))) as [p | ];
               [ destruct (policy_data_col p) | ];
               apply triple_inv in H; destruct H as (? & ? & ?); subst;
               try discriminate
           end
       end.
  all: simpl.
  all: try (split; [ reflexivity | ]).
  all: try (exists 0%nat; reflexivity).
  all: try (exists 5%nat; reflexivity).
  all: split; [ reflexivity | ]; split; [ assumption | ]; eauto.
Qed.

(* ====================================================================== *)
(** ** What a node that returns has done *)
(* ====================================================================== *)

Lemma agent_outcome_ok E n ok s' l :
  agent_outcome E n ok (OK s') l ->
  exists c v, l = [EvEnter n; EvInvoke n c] /\ json_loads E c = Some v /\ ok v s'.
Proof.
  intros [(_ & e & He) | (c & Hl & Hm)]; [ discriminate | ].
  destruct (json_loads E c) as [v | ] eqn:Hc; [ | discriminate ].
  exists c, v. auto.
Qed.

Lemma initial_state_fresh t tid dbc pol pw : fresh (initial_state t tid dbc pol pw).
Proof. repeat split. Qed.

Section Invariants.

Variable E : env.

Lemma stage_inv_step s0 n s w s' w' l n' :
  stage_inv s0 n s -> fresh s0 ->
  node_fn (build_pipeline_graph E) n s w = (OK s', w', l) ->
  next_node (build_pipeline_graph E) n s' = Some n' ->
  stage_inv s0 n' s'.
Proof.
  intros [Hpol Hinv] Hs0 Hrun Hnext.
  destruct n; simpl in Hrun, Hnext, Hinv; inversion Hnext; subst n'; clear Hnext.
  - apply extraction_node_spec in Hrun. destruct Hrun as [_ Ho].
    apply agent_outcome_ok in Ho.
    destruct Ho as (c & v & _ & _ & (ch & pv & ts & _ & _ & Hs' & _)).
    subst s. rewrite Hs'. split; [ reflexivity | exact Hs0 ].
  - apply normalization_node_spec in Hrun. destruct Hrun as [_ Ho].
    apply agent_outcome_ok in Ho.
    destruct Ho as (c & v & _ & _ & (ch & pv & ts & _ & _ & Hs' & Hsame & _)).
    destruct Hsame as (da & dn & _ & Hn & _).
    rewrite Hs'. split; [ exact Hpol | ]. simpl. split; [ exact Hinv | ].
    exists dn. rewrite Hs' in Hn. exact Hn.
  - apply qa_node_spec in Hrun. destruct Hrun as [_ Ho].
    apply agent_outcome_ok in Ho.
    destruct Ho as (c & v & _ & _ & (d & -> & Hq)).
    destruct Hinv as [(Hf & Hr & Hc & Hsv & Hst) _].
    unfold qa_router.
    destruct (py_eq_str (get_or d "qa_decision" VNone) "rejected").
    + subst s'. simpl. split; [ exact Hpol | ]. auto.
    + destruct Hq as (bd & _ & ->). unfold qa_accepted_state.
      destruct (dict_get d "validated_task"); simpl; rewrite Hst; simpl;
        (split; [ exact Hpol | auto ]).
  - apply prioritization_node_spec in Hrun. destruct Hrun as [_ Ho].
    apply agent_outcome_ok in Ho.
    destruct Ho as (c & v & _ & _ & ->).
    destruct Hinv as (Hr & Hc & Hsv & Hst).
    split; [ exact Hpol | ]. simpl. auto.
Qed.

Lemma config_inv s0 w0 n s w :
  fresh s0 ->
  config_reachable (build_pipeline_graph E) s0 w0 n s w ->
  stage_inv s0 n s.
Proof.
  intros Hs0 Hreach. induction Hreach as [ | n s w s' w' l n' _ IH Hrun Hnext].
  - simpl. split; reflexivity.
  - eapply stage_inv_step; eauto.
Qed.


End Invariants.

(* ====================================================================== *)
(** ** The persister *)
(* ====================================================================== *)

(** C6.  The persister is not idempotent: when a call of
    [save_task_to_db] with a final task and a transcript identifier
    succeeds, a second call with the same two arguments succeeds too, the
    store has gained two rows with the same content, and the two generated
    identifiers differ. *)
Theorem save_twice_inserts_two_rows task tid w id1 w1 l1 :
  save_task_to_db task tid w = (OK id1, w1, l1) ->
  exists id2 w2 l2 r,
    task_row task tid = OK r /\
    save_task_to_db task tid w1 = (OK id2, w2, l2) /\
    id1 <> id2 /\
    tasks (db w2) =
      tasks (db w) ++ [("task_id", VInt id1) :: r; ("task_id", VInt id2) :: r] /\
    l1 = [EvInsert id1] /\ l2 = [EvInsert id2].
Proof.
  rewrite save_task_to_db_spec.
  destruct (online (db w)) eqn:Hon; [ | discriminate ].
  destruct (insert_values task tid) as [r | e] eqn:Hrow; [ | discriminate ].
  intros H. inversion H; subst; clear H.
  exists (task_seq (db w) + 1)%Z. do 2 eexists. exists r.
  split; [ apply insert_values_ok in Hrow; apply Hrow | ]. split.
  - rewrite save_task_to_db_spec. simpl. rewrite Hon, Hrow. reflexivity.
  - split; [ lia | ]. simpl. rewrite <- app_assoc. auto.
Qed.

Lemma save_twice_inserts_two_rows_witness :
  exists id2 w2 l2 r,
    task_row (Sample.prioritization_reply "v1") VNone = OK r /\
    save_task_to_db (Sample.prioritization_reply "v1") VNone
      (world_of (save_task_to_db (Sample.prioritization_reply "v1") VNone
                   Sample.world_v1))
      = (OK id2, w2, l2) /\
    1%Z <> id2 /\
    tasks (db w2) =
      tasks (db Sample.world_v1)
        ++ [("task_id", VInt 1) :: r; ("task_id", VInt id2) :: r] /\
    [EvInsert 1] = [EvInsert 1] /\ l2 = [EvInsert id2].
Proof.
  apply (save_twice_inserts_two_rows (Sample.prioritization_reply "v1") VNone
           Sample.world_v1 1%Z _ [EvInsert 1%Z]).
  vm_compute. reflexivity.
Defined.

(* ====================================================================== *)
(** ** The QA stage *)
(* ====================================================================== *)

Section QAStage.

Variable E : env.

Let g := build_pipeline_graph E.


(** C10.  When QA in a run gets a reply that does not reject and has no
    [validated_task], the stage returns: the final task is the normalized
    payload with [qa_metadata] set to the reply's, or to an empty record
    when the reply has none, every other field as it was; the status is
    still pending, nothing is recorded as a rejection, and the run goes on
    to prioritization. *)
Theorem qa_accept_without_validated_task t tid dbc pol pw w0 s w prompt c d :
  config_reachable g (initial_state t tid dbc pol pw) w0 qa s w ->
  load_prompt E "qa"
    [("db_context", json_dumps E (db_context s));
     ("policy", json_dumps E (policy_snapshot s));
     ("normalized_task", json_dumps E (normalized_task s))] = OK prompt ->
  llm_invoke E (ticks w) prompt = OK c ->
  json_loads E c = Some (VDict d) ->
  py_eq_str (get_or d "qa_decision" VNone) "rejected" = false ->
  dict_get d "validated_task" = None ->
  exists bd s',
    normalized_task s = VDict bd /\
    qa_node E s w =
      (OK s', {| db := db w; ticks := S (ticks w) |}, [EvEnter qa; EvInvoke qa c]) /\
    final_task s' = VDict (dict_set bd "qa_metadata" (get_or d "qa_metadata" (VDict []))) /\
    (dict_get d "qa_metadata" = None ->
     final_task s' = VDict (dict_set bd "qa_metadata" (VDict []))) /\
    same_fields_but "qa_metadata" (normalized_task s) (final_task s') /\
    status s' = pending /\
    rejection_reason s' = VNone /\ rejection_category s' = VNone /\
    qa_router s' = prioritization.
Proof.
  intros Hreach Hp Hc Hj Hacc Hnov.
  pose proof (config_inv E _ _ _ _ _ (initial_state_fresh t tid dbc pol pw) Hreach)
    as [_ [(Hf & Hr & Hcat & Hsv & Hst) (bd & Hn)]].
  exists bd, (qa_accepted_state s d bd).
  split; [ exact Hn | ].
  split.
  { unfold qa_node, invoke_agent, bind, lift, emit, tick, ret.
    rewrite Hp. simpl. rewrite Hc. simpl. rewrite Hj. simpl.
    unfold get_or in Hacc. rewrite Hacc. rewrite Hnov, Hn. simpl.
    unfold qa_accepted_state, get_or. rewrite ?Hnov. reflexivity. }
  unfold qa_accepted_state. rewrite Hnov. simpl.
  split; [ reflexivity | ].
  split; [ intros Hmd; unfold get_or; now rewrite Hmd | ].
  split.
  { rewrite Hn. exists bd. eexists. split; [ reflexivity | ]. split; [ reflexivity | ].
    split; [ rewrite dict_get_set_same; discriminate | ].
    intros k Hk. now rewrite dict_get_set_other by auto. }
  unfold qa_router. simpl. rewrite Hst. auto.
Qed.

End QAStage.

(** The sample runs reach normalization and QA. *)
Lemma sample_reaches_normalization q :
  let E := Sample.env_with "v1" q in
  config_reachable (build_pipeline_graph E) Sample.s0 Sample.world_v1 normalization
    (fst (Sample.at_normalization E)) (snd (Sample.at_normalization E)).
Proof.
  intros E. eapply reach_step with (n := extraction).
  - apply reach_entry.
  - vm_compute. reflexivity.
  - reflexivity.
Qed.

Lemma sample_reaches_qa q :
  let E := Sample.env_with "v1" q in
  config_reachable (build_pipeline_graph E) Sample.s0 Sample.world_v1 qa
    (fst (Sample.at_qa E)) (snd (Sample.at_qa E)).
Proof.
  intros E. eapply reach_step with (n := normalization).
  - apply sample_reaches_normalization.
  - vm_compute. reflexivity.
  - reflexivity.
Qed.


Lemma qa_accept_without_validated_task_witness :
  let E := Sample.env_with "v1" Sample.qa_accept_bare in
  exists bd s',
    normalized_task (fst (Sample.at_qa E)) = VDict bd /\
    qa_node E (fst (Sample.at_qa E)) (snd (Sample.at_qa E)) =
      (OK s', {| db := db (snd (Sample.at_qa E));
                 ticks := S (ticks (snd (Sample.at_qa E))) |},
       [EvEnter qa; EvInvoke qa "qa"]) /\
    final_task s' = VDict (dict_set bd "qa_metadata" (VDict [])) /\
    status s' = pending /\
    qa_router s' = prioritization.
Proof.
  intros E.
  destruct (qa_accept_without_validated_task E Sample.transcript VNone (VDict [])
              (VDict [("policy_version", VStr "v1"); ("rules", VDict [])]) (VList [])
              Sample.world_v1 (fst (Sample.at_qa E)) (snd (Sample.at_qa E))
              "qa" "qa" [("qa_decision", VStr "accepted")])
    as (bd & s' & Hn & Hrun & _ & Hmd & _ & Hst & _ & _ & Hroute).
  - apply (sample_reaches_qa Sample.qa_accept_bare).
  - reflexivity.
  - reflexivity.
  - reflexivity.
  - reflexivity.
  - reflexivity.
  - exists bd, s'. repeat split; auto.
Defined.

(* ====================================================================== *)
(** ** Payloads and replies *)
(* ====================================================================== *)

(** C4, as the code has it.  The payload a stage leaves is built from the
    reply of that stage, not from the payload of the stage before:
    extraction and normalization keep every field of their reply and add or
    extend [lineage_metadata]; QA, unless it rejects, keeps every field of
    the reply's [validated_task], or of the normalized payload when the
    reply has none, and sets [qa_metadata]; on rejection it leaves both
    payloads alone; prioritization adopts its reply as it is; saving and
    the rejection node change no payload. *)
Theorem stage_payload_from_reply E n s w s' w' l :
  node_fn (build_pipeline_graph E) n s w = (OK s', w', l) ->
  stage_payload E n s s' l.
Proof.
  intros Hrun. destruct n; simpl in Hrun |- *.
  - apply extraction_node_spec in Hrun. destruct Hrun as [_ Ho].
    apply agent_outcome_ok in Ho.
    destruct Ho as (c & v & Hl & Hc & (ch & pv & ts & _ & _ & _ & Hsame & _)).
    exists c, v. auto.
  - apply normalization_node_spec in Hrun. destruct Hrun as [_ Ho].
    apply agent_outcome_ok in Ho.
    destruct Ho as (c & v & Hl & Hc & (ch & pv & ts & _ & _ & _ & Hsame & _)).
    exists c, v. auto.
  - apply qa_node_spec in Hrun. destruct Hrun as [_ Ho].
    apply agent_outcome_ok in Ho.
    destruct Ho as (c & v & Hl & Hc & (d & -> & Hq)).
    exists c, d. split; [ exact Hl | ]. split; [ exact Hc | ].
    destruct (py_eq_str (get_or d "qa_decision" VNone) "rejected").
    + subst s'. split; reflexivity.
    + destruct Hq as (bd & Hbd & ->). rewrite Hbd.
      exists bd. eexists. split; [ reflexivity | ].
      split; [ unfold qa_accepted_state;
               destruct (dict_get d "validated_task"); reflexivity | ].
      split; [ rewrite dict_get_set_same; discriminate | ].
      intros k Hk. now rewrite dict_get_set_other by auto.
  - apply prioritization_node_spec in Hrun. destruct Hrun as [_ Ho].
    apply agent_outcome_ok in Ho.
    destruct Ho as (c & v & Hl & Hc & ->).
    exists c, v. auto.
  - rewrite save_node_spec in Hrun.
    destruct (online (db w)); [ | discriminate ].
    destruct (insert_values (final_task s) (transcript_id s)); [ | discriminate ].
    inversion Hrun; subst. reflexivity.
  - rewrite rejection_node_spec in Hrun. inversion Hrun; subst. reflexivity.
Qed.

Lemma stage_payload_from_reply_witness :
  let E := Sample.env_with "v1" Sample.qa_reject in
  stage_payload E normalization (fst (Sample.at_normalization E))
    (fst (Sample.at_qa E)) [EvEnter normalization; EvInvoke normalization "normalization"].
Proof.
  intros E.
  apply (stage_payload_from_reply E normalization (fst (Sample.at_normalization E))
           (snd (Sample.at_normalization E)) (fst (Sample.at_qa E))
           (snd (Sample.at_qa E))).
  vm_compute. reflexivity.
Defined.

(** C4, as stated, fails.  Normalization returns on a reply without the
    description that the extracted payload has, and the normalized payload
    has lost it; prioritization returns on a reply without the due date
    that the validated payload has, and the final task has lost it. *)
Lemma stages_drop_fields_counterexample :
  (let E := Sample.env_lossy in
   let before := Sample.after E extraction (Sample.s0, Sample.world_v1) in
   let after_ := Sample.after E normalization before in
   res_of (normalization_node E (fst before) (snd before)) = OK (fst after_) /\
   py_getitem (extracted_task (fst before)) "description"
     = OK (VStr "Review medications") /\
   py_getitem (normalized_task (fst after_)) "description"
     = Err (KeyError "description")) /\
  (let E := Sample.env_with "v1" Sample.qa_accept_bare in
   let before := Sample.after E qa (Sample.at_qa E) in
   let after_ := Sample.after E prioritization before in
   res_of (prioritization_node E (fst before) (snd before)) = OK (fst after_) /\
   py_getitem (final_task (fst before)) "due_date" = OK (VStr "2025-01-02") /\
   py_getitem (final_task (fst after_)) "due_date" = Err (KeyError "due_date")).
Proof. vm_compute. repeat split. Qed.

(* ====================================================================== *)
(** ** A store without an active policy *)
(* ====================================================================== *)





(* ====================================================================== *)
(** ** Every run has one of five shapes *)
(* ====================================================================== *)

Lemma agent_outcome_err E n ok e l :
  agent_outcome E n ok (Err e) l ->
  l = [EvEnter n] \/
  exists c, l = [EvEnter n; EvInvoke n c] /\
            (json_loads E c = None -> e = JSONDecodeError).
Proof.
  intros [(Hl & _) | (c & Hl & Hm)]; [ left; exact Hl | right ].
  exists c. split; [ exact Hl | ]. intros Hc. rewrite Hc in Hm.
  now inversion Hm.
Qed.

Lemma extraction_ok_transcript_id s v s' :
  extraction_ok s v s' -> transcript_id s' = transcript_id s.
Proof. intros (c & pv & ts & _ & _ & Hs' & _). now rewrite Hs'. Qed.

Lemma normalization_ok_transcript_id s v s' :
  normalization_ok s v s' -> transcript_id s' = transcript_id s.
Proof. intros (c & pv & ts & _ & _ & Hs' & _). now rewrite Hs'. Qed.

Lemma qa_ok_transcript_id s v s' :
  qa_ok s v s' -> transcript_id s' = transcript_id s.
Proof.
  intros (d & _ & Hq).
  destruct (py_eq_str (get_or d "qa_decision" VNone) "rejected").
  - now subst s'.
  - destruct Hq as (bd & _ & ->). unfold qa_accepted_state.
    now destruct (dict_get d "validated_task").
Qed.

Ltac use_specs :=
  repeat match goal with
  | H : extraction_node _ _ _ = (_, _, _) |- _ =>
      apply extraction_node_spec in H; destruct H as [? ?]
  | H : normalization_node _ _ _ = (_, _, _) |- _ =>
      apply normalization_node_spec in H; destruct H as [? ?]
  | H : qa_node _ _ _ = (_, _, _) |- _ =>
      apply qa_node_spec in H; destruct H as [? ?]
  | H : prioritization_node _ _ _ = (_, _, _) |- _ =>
      apply prioritization_node_spec in H; destruct H as [? ?]
  | H : agent_outcome _ _ _ (OK _) _ |- _ =>
      apply agent_outcome_ok in H; destruct H as (? & ? & ? & ? & ?); subst
  | H : agent_outcome _ _ _ (Err _) _ |- _ =>
      apply agent_outcome_err in H
  | H : rejection_node _ _ = (_, _, _) |- _ =>
      rewrite rejection_node_spec in H; apply triple_inv in H;
      destruct H as (? & ? & ?); subst
  | H : fetch_initial_state _ _ _ = (OK _, _, _) |- _ =>
      apply fetch_initial_state_inv in H;
      destruct H as (? & ? & ? & ? & ? & ? & ? & ?); subst
  | H : fetch_initial_state _ _ _ = (Err _, _, _) |- _ =>
      apply fetch_initial_state_inv in H; destruct H as (? & ? & ?); subst
  | H : OK _ = OK _ |- _ => inversion H; clear H; subst
  | H : Err _ = Err _ |- _ => inversion H; clear H; subst
  | H : OK _ = Err _ |- _ => discriminate H
  | H : Err _ = OK _ |- _ => discriminate H
  end.

Ltac side_conditions :=
  try reflexivity;
  try (repeat constructor; unfold parsed; simpl; congruence);
  try assumption;
  try congruence.

Section RunCases.

Variable E : env.

Lemma run_pipeline_shape t tid w r w' l :
  run_pipeline E t tid w = (r, w', l) -> run_shape E tid w r w' l.
Proof.
  intros H. rewrite run_pipeline_split in H.
  unfold run_to_qa, stages_to_qa, stages_after_qa in H.
  minv; use_specs.
  all: repeat rewrite app_nil_r; repeat rewrite <- app_assoc; simpl app.
  all: try apply shape_load_failed.
  all: try (eapply (shape_stage_failed E tid _ [] 0 extraction); side_conditions; fail).
  all: try (eapply (shape_stage_failed E tid _ [(extraction, _)] 1 normalization);
            side_conditions; fail).
  all: try (eapply (shape_stage_failed E tid _
                      [(extraction, _); (normalization, _)] 2 qa);
            side_conditions; fail).
  all: try (eapply (shape_stage_failed E tid _
                      [(extraction, _); (normalization, _); (qa, _)] 3 prioritization);
            side_conditions; fail).
  - (* the save fails *)
    match goal with
    | Hs : save_node ?s4 ?wx = _ |- _ =>
        rewrite save_node_spec in Hs;
        assert (Hdb : db wx = db w) by congruence;
        destruct (online (db wx)); [ destruct (insert_values _ _) | ];
        apply triple_inv in Hs; destruct Hs as (? & ? & ?); subst; try discriminate
    end.
    all: eapply (shape_save_failed E tid _
                   [(extraction, _); (normalization, _); (qa, _); (prioritization, _)]);
      side_conditions.
  - (* QA rejected *)
    unfold pipeline_result.
    match goal with Hb : status_eqb _ _ = true |- _ => rewrite Hb end.
    eapply (shape_rejected E tid _ [(extraction, _); (normalization, _); (qa, _)]);
      side_conditions.
  - (* the task is saved *)
    match goal with
    | Hp : prioritization_ok ?sq ?v4 ?s4, Hq : qa_ok ?s2 _ ?sq,
      Hn : normalization_ok ?s1 _ ?s2, He : extraction_ok _ _ ?s1,
      Hs : save_node ?s4 ?wx = _ |- _ =>
        assert (Hdb : db wx = db w) by congruence;
        assert (Htid : transcript_id s4 = tid)
          by (unfold prioritization_ok in Hp; subst s4; simpl;
              rewrite (qa_ok_transcript_id _ _ _ Hq),
                      (normalization_ok_transcript_id _ _ _ Hn),
                      (extraction_ok_transcript_id _ _ _ He); reflexivity);
        rewrite save_node_spec, Htid in Hs; clear Htid;
        unfold prioritization_ok in Hp; subst s4; simpl in Hs;
        destruct (online (db wx)); [ destruct (insert_values v4 tid) eqn:Hrow | ];
        apply triple_inv in Hs; destruct Hs as (? & ? & ?); subst; try discriminate
    end.
    match goal with Ho : OK _ = OK _ |- _ => inversion Ho; subst; clear Ho end.
    unfold pipeline_result. simpl. rewrite Hdb.
    eapply (shape_completed E tid _
              [(extraction, _); (normalization, _); (qa, _); (prioritization, _)]);
      side_conditions.
Qed.

End RunCases.

(* ====================================================================== *)
(** ** Outcomes *)
(* ====================================================================== *)



Lemma no_invoke_in_fetch n c : ~ In (EvInvoke n c) fetch_events.
Proof. simpl. intuition discriminate. Qed.

Lemma no_invoke_in_fetch_prefix n c k : ~ In (EvInvoke n c) (firstn k fetch_events).
Proof.
  intros H. apply (no_invoke_in_fetch n c).
  rewrite <- (firstn_skipn k fetch_events). apply in_or_app. left. exact H.
Qed.

(** C3.  Every run of [run_pipeline] ends in exactly one of three ways.
    Completed: the result has the status, the identifier the store
    generated and the task, and the store has gained the row of that task.
    Rejected: the result has the status, the reason and the category, and
    the store is as before.  System error: there is no result, and the
    store is as before. *)
Theorem run_pipeline_one_outcome E t tid w :
  let r := res_of (run_pipeline E t tid w) in
  let w' := world_of (run_pipeline E t tid w) in
  (is_completed r /\ ~ is_rejected r /\ ~ is_system_error r /\
   exists task row,
     r = OK (VDict [("status", VStr "completed");
                    ("task_id", VInt (task_seq (db w)));
                    ("task", task)]) /\
     task_row task tid = OK row /\
     tasks (db w') = tasks (db w) ++ [("task_id", VInt (task_seq (db w))) :: row]) \/
  (is_rejected r /\ ~ is_completed r /\ ~ is_system_error r /\ db w' = db w) \/
  (is_system_error r /\ ~ is_completed r /\ ~ is_rejected r /\ db w' = db w).
Proof.
  destruct (run_pipeline E t tid w) as [[r w'] l] eqn:Hrun.
  unfold res_of, world_of. simpl.
  apply run_pipeline_shape in Hrun.
  assert (Herr : forall e, is_system_error (Err e) /\ ~ is_completed (@Err value e)
                           /\ ~ is_rejected (@Err value e)).
  { intros e. split; [ exists e; reflexivity | ].
    split; [ intros (? & ? & ?) | intros (? & ? & ?) ]; discriminate. }
  inversion Hrun; subst.
  - right. right. destruct (Herr e) as (? & ? & ?). auto.
  - right. right. destruct (Herr e) as (? & ? & ?). auto.
  - right. left. split; [ exists reason, category; reflexivity | ].
    split; [ intros (? & ? & ?); discriminate | ].
    split; [ intros (? & ?); discriminate | assumption ].
  - right. right. destruct (Herr e) as (? & ? & ?). auto.
  - left. split; [ eexists; eexists; reflexivity | ].
    split; [ intros (? & ? & ?); discriminate | ].
    split; [ intros (? & ?); discriminate | ].
    exists task, r0. split; [ reflexivity | ].
    split; [ match goal with H : insert_values _ _ = OK _ |- _ =>
               apply insert_values_ok in H; apply H end | ].
    match goal with H : db _ = insert_task _ _ |- _ => rewrite H end. reflexivity.
Qed.




(* ====================================================================== *)
(** ** Routing on QA's verdict *)
(* ====================================================================== *)

Lemma py_eq_str_true v lit : py_eq_str v lit = true <-> v = VStr lit.
Proof.
  destruct v; simpl; try (split; [ discriminate | intros H; discriminate H ]).
  rewrite String.eqb_eq. split; [ intros -> | intros H; inversion H ]; reflexivity.
Qed.

Lemma extraction_ok_status s v s' : extraction_ok s v s' -> status s' = status s.
Proof. intros (c & pv & ts & _ & _ & Hs' & _). now rewrite Hs'. Qed.

Lemma normalization_ok_status s v s' : normalization_ok s v s' -> status s' = status s.
Proof. intros (c & pv & ts & _ & _ & Hs' & _). now rewrite Hs'. Qed.

(** After QA the status is rejected exactly when the recorded verdict is
    the string "rejected". *)
Lemma qa_ok_verdict s v sq :
  status s = pending -> qa_ok s v sq ->
  (qa_verdict sq = VStr "rejected" /\ status sq = rejected) \/
  (qa_verdict sq <> VStr "rejected" /\ status sq = pending).
Proof.
  intros Hst (d & -> & Hq).
  destruct (py_eq_str (get_or d "qa_decision" VNone) "rejected") eqn:Hv.
  - left. subst sq. unfold qa_verdict. simpl.
    split; [ now apply py_eq_str_true | reflexivity ].
  - right. destruct Hq as (bd & _ & ->).
    assert (Hne : get_or d "qa_decision" VNone <> VStr "rejected").
    { intros Heq. apply py_eq_str_true in Heq. congruence. }
    unfold qa_accepted_state, qa_verdict.
    destruct (dict_get d "validated_task"); simpl; (split; [ | exact Hst ]).
    + unfold get_or in *. rewrite dict_get_set_other by discriminate. exact Hne.
    + exact Hne.
Qed.

Ltac in_list := simpl; repeat (first [ left; reflexivity | right ]); fail.

Ltac not_in_list H :=
  simpl in H; repeat (destruct H as [H | H]; try discriminate H); try contradiction.

Section Routing.

Variable E : env.

(** C1, as the code has it.  In a run whose QA stage returns,
    prioritization runs exactly when the verdict of the reply is not the
    string "rejected", and the rejection node runs exactly when it is; the
    save runs only after prioritization; and on the verdict "rejected" the
    result is the rejection, it has no [task_id], the store is as before
    and nothing was inserted. *)
Theorem qa_verdict_routes t tid w sq wq lq :
  run_to_qa E t tid w = (OK sq, wq, lq) ->
  let run := run_pipeline E t tid w in
  (In (EvEnter prioritization) (log_of run) <-> qa_verdict sq <> VStr "rejected") /\
  (In (EvEnter rejection) (log_of run) <-> qa_verdict sq = VStr "rejected") /\
  (In (EvEnter save) (log_of run) -> In (EvEnter prioritization) (log_of run)) /\
  (qa_verdict sq = VStr "rejected" ->
   res_of run = OK (VDict [("status", VStr "rejected");
                           ("rejection_reason", rejection_reason sq);
                           ("rejection_category", rejection_category sq)]) /\
   (forall v, res_of run = OK v -> py_getitem v "task_id" = Err (KeyError "task_id")) /\
   db (world_of run) = db w /\
   forall id, ~ In (EvInsert id) (log_of run)).
Proof.
  intros Hq. simpl.
  rewrite run_pipeline_split.
  rewrite (bind_ok _ _ _ _ _ _ Hq).
  unfold res_of, world_of, log_of. simpl.
  (* what the run did up to QA *)
  unfold run_to_qa, stages_to_qa in Hq. minv. use_specs.
  match goal with
  | He : extraction_ok _ _ ?s1, Hn : normalization_ok ?s1 _ ?s2, Hqa : qa_ok ?s2 _ sq |- _ =>
      assert (Hst : status s2 = pending)
        by (rewrite (normalization_ok_status _ _ _ Hn),
                    (extraction_ok_status _ _ _ He); reflexivity);
      destruct (qa_ok_verdict _ _ _ Hst Hqa) as [[Hv Hs] | [Hv Hs]]
  end.
  all: assert (Hdb : db wq = db w) by congruence.
  all: destruct (bind (stages_after_qa E sq) (fun sf => ret (pipeline_result sf)) wq)
         as [[r w'] l] eqn:Hafter.
  all: unfold stages_after_qa in Hafter; rewrite Hs in Hafter; simpl in Hafter.
  - (* rejected *)
    minv; use_specs; simpl.
    unfold pipeline_result. rewrite Hs. simpl.
    split; [ split; [ intros Hin; not_in_list Hin | congruence ] | ].
    split; [ split; [ intros _; exact Hv | intros _; in_list ] | ].
    split; [ intros Hin; not_in_list Hin | ].
    intros _. split; [ reflexivity | ].
    split; [ intros v Hv'; inversion Hv'; subst; reflexivity | ].
    split; [ exact Hdb | ].
    intros id Hin. not_in_list Hin.
  - (* not rejected *)
    minv; use_specs; simpl.
    all: repeat match goal with
         | Ht : _ \/ _ |- _ => destruct Ht as [Ht | (? & Ht & ?)]; subst
         end.
    all: try (match goal with
              | Hsave : save_node ?s4 ?wx = _ |- _ =>
                  rewrite save_node_spec in Hsave;
                  destruct (online (db wx));
                  [ destruct (insert_values (final_task s4) (transcript_id s4)) | ];
                  apply triple_inv in Hsave; destruct Hsave as (? & ? & ?); subst
              end).
    all: simpl.
    all: split; [ split; [ intros _; exact Hv | intros _; in_list ] | ].
    all: split; [ split; [ intros Hin; not_in_list Hin | congruence ] | ].
    all: split; [ intros _; in_list | congruence ].
Qed.

End Routing.

Lemma qa_verdict_routes_witness :
  let E := Sample.env_with "v1" Sample.qa_reject in
  let run := run_pipeline E Sample.transcript VNone Sample.world_v1 in
  In (EvEnter rejection) (log_of run) /\
  ~ In (EvEnter prioritization) (log_of run) /\
  db (world_of run) = db Sample.world_v1.
Proof.
  intros E run.
  edestruct (qa_verdict_routes E Sample.transcript VNone Sample.world_v1)
    as (Hprio & Hrej & _ & Hres).
  - vm_compute. reflexivity.
  - split; [ apply Hrej; vm_compute; reflexivity | ].
    split.
    + intros Hin. apply Hprio in Hin. apply Hin. vm_compute. reflexivity.
    + apply Hres. vm_compute. reflexivity.
Defined.

(** C1, as stated, fails.  On the verdict "needs_review", which is not
    "accepted", the run goes on to prioritization and saves a row instead
    of going to the rejection node. *)
Lemma needs_review_is_prioritized_counterexample :
  let E := Sample.env_with "v1" Sample.qa_needs_review in
  let run := run_pipeline E Sample.transcript VNone Sample.world_v1 in
  (exists sq wq lq,
     run_to_qa E Sample.transcript VNone Sample.world_v1 = (OK sq, wq, lq) /\
     qa_verdict sq = VStr "needs_review") /\
  VStr "needs_review" <> VStr "accepted" /\
  In (EvEnter prioritization) (log_of run) /\
  In (EvEnter save) (log_of run) /\
  ~ In (EvEnter rejection) (log_of run) /\
  is_completed (res_of run) /\
  length (tasks (db (world_of run))) = 1%nat.
Proof.
  intros E run.
  split; [ do 3 eexists; split; [ vm_compute; reflexivity | reflexivity ] | ].
  split; [ discriminate | ].
  split; [ vm_compute; tauto | ].
  split; [ vm_compute; tauto | ].
  split; [ vm_compute; intros H; repeat (destruct H as [H | H]; try discriminate H);
           exact H | ].
  split; [ do 2 eexists; vm_compute; reflexivity | reflexivity ].
Qed.

(* ====================================================================== *)
(** ** The lineage chain *)
(* ====================================================================== *)



Section Lineage.

Variable E : env.


End Lineage.



(* ====================================================================== *)
(** ** The store may change under a run *)
(* ====================================================================== *)

Section Respect.

Variable R : store -> store -> Prop.

Lemma respects_ret {A} (a : A) : respects R (ret a).
Proof. intros w1 w2 H. repeat split; apply H. Qed.

Lemma respects_raise {A} e : respects R (@raise A e).
Proof. intros w1 w2 H. repeat split; apply H. Qed.

Lemma respects_lift {A} (r : result A) : respects R (lift r).
Proof. intros w1 w2 H. repeat split; apply H. Qed.

Lemma respects_emit e : respects R (emit e).
Proof. intros w1 w2 H. repeat split; apply H. Qed.

Lemma respects_tick : respects R tick.
Proof.
  intros w1 w2 (Ht & Hs). unfold tick, sim_out, res_of, world_of, log_of, sim. simpl.
  rewrite Ht. auto.
Qed.

Lemma bind_sim {A B} (m1 m2 : M A) (f1 f2 : A -> M B) w1 w2 :
  sim_out R (m1 w1) (m2 w2) ->
  (forall a v1 v2, sim R v1 v2 -> sim_out R (f1 a v1) (f2 a v2)) ->
  sim_out R (bind m1 f1 w1) (bind m2 f2 w2).
Proof.
  unfold bind, sim_out, res_of, world_of, log_of.
  destruct (m1 w1) as [[r1 v1] l1], (m2 w2) as [[r2 v2] l2]. simpl.
  intros (-> & -> & Hv) Hf.
  destruct r2 as [a | e]; [ | auto ].
  specialize (Hf a v1 v2 Hv).
  destruct (f1 a v1) as [[r1' v1'] l1'], (f2 a v2) as [[r2' v2'] l2']. simpl in *.
  destruct Hf as (-> & -> & Hv'). auto.
Qed.

Lemma respects_bind {A B} (m : M A) (f : A -> M B) :
  respects R m -> (forall a, respects R (f a)) -> respects R (bind m f).
Proof.
  intros Hm Hf w1 w2 Hw. apply bind_sim; [ apply Hm; exact Hw | ].
  intros a v1 v2 Hv. apply Hf. exact Hv.
Qed.

End Respect.

Lemma sim_out_refl {A} (x : result A * world * list event) : sim_out same_tasks x x.
Proof. repeat split. Qed.

Lemma respects_save_task_to_db task tid : respects same_tasks (save_task_to_db task tid).
Proof.
  intros w1 w2 (Ht & Hk & Hq & Ho).
  rewrite !save_task_to_db_spec. rewrite Ho.
  unfold sim_out, res_of, world_of, log_of, sim, same_tasks.
  destruct (online (db w2)) eqn:Hon; [ destruct (insert_values task tid) | ]; simpl.
  all: repeat split; congruence.
Qed.

Ltac respects_tac :=
  repeat first
    [ apply respects_save_task_to_db
    | apply respects_ret | apply respects_raise | apply respects_lift
    | apply respects_emit | apply respects_tick
    | apply respects_bind; [ | intros ? ]
    | match goal with
      | |- respects _ (if ?b then _ else _) => destruct b
      | |- respects _ (match ?x with _ => _ end) => destruct x
      end ].

Lemma bind_disturb {A} f (m : M A) w :
  bind (disturb f) (fun _ => m) w = m {| db := f (db w); ticks := ticks w |}.
Proof.
  unfold bind, disturb.
  destruct (m {| db := f (db w); ticks := ticks w |}) as [[r w'] l]. reflexivity.
Qed.

Section Disturbed.

Variable E : env.

(** The agent nodes and the rejection node never look at the store. *)
Lemma respects_stage R n s :
  n <> save -> respects R (node_fn (build_pipeline_graph E) n s).
Proof.
  intros Hn. destruct n; simpl; try congruence.
  - unfold extraction_node, invoke_agent, append_lineage. respects_tac.
  - unfold normalization_node, invoke_agent, append_lineage. respects_tac.
  - unfold qa_node, invoke_agent. respects_tac.
  - unfold prioritization_node, invoke_agent. respects_tac.
  - unfold rejection_node. respects_tac.
Qed.

Lemma respects_node n s : respects same_tasks (node_fn (build_pipeline_graph E) n s).
Proof.
  destruct n; try (apply respects_stage; discriminate).
  simpl. unfold save_node. respects_tac.
Qed.

Lemma run_from_disturbed_sim changes fuel :
  (forall k, grounding_only (changes k)) ->
  forall n s w1 w2, sim same_tasks w1 w2 ->
    sim_out same_tasks (run_from (build_pipeline_graph E) fuel n s w1)
            (run_from_disturbed (build_pipeline_graph E) changes fuel n s w2).
Proof.
  intros Hch. induction fuel as [ | fuel IH]; intros n s w1 w2 Hw.
  - simpl. apply respects_raise. exact Hw.
  - cbn [run_from run_from_disturbed].
    rewrite bind_disturb.
    apply bind_sim.
    + apply respects_node. destruct Hw as (Ht & Hk & Hq & Ho).
      destruct (Hch fuel (db w2)) as (Hk' & Hq' & Ho').
      repeat split; simpl; congruence.
    + intros s' v1 v2 Hv.
      destruct (next_node (build_pipeline_graph E) n s').
      * apply IH. exact Hv.
      * apply respects_ret. exact Hv.
Qed.

End Disturbed.

Lemma no_query_in_done_log q cs : ~ In (EvQuery q) (done_log cs).
Proof.
  unfold done_log. rewrite in_flat_map. intros (nc & _ & Hin).
  simpl in Hin. intuition discriminate.
Qed.

(** C5.  The context is loaded at the start of a run and not again: the
    queries are the first events of the log, each at most once, and no
    stage sends one.  Whatever happens to the grounding tables, the
    policies and the weights between the stages of a run, its result, its
    log and the rows it leaves in the task table are those of the
    undisturbed run; and a transformation stage gives the same result and
    log on any store whatever. *)
Theorem store_changes_after_fetch_are_invisible E changes t tid w :
  (forall k, grounding_only (changes k)) ->
  let plain := run_pipeline E t tid w in
  let disturbed := run_pipeline_disturbed E changes t tid w in
  res_of disturbed = res_of plain /\
  log_of disturbed = log_of plain /\
  tasks (db (world_of disturbed)) = tasks (db (world_of plain)) /\
  (forall n s st, n <> save ->
     let stage := node_fn (build_pipeline_graph E) n s in
     res_of (stage {| db := st; ticks := ticks w |}) = res_of (stage w) /\
     log_of (stage {| db := st; ticks := ticks w |}) = log_of (stage w)) /\
  NoDup fetch_events /\
  ((exists k, log_of plain = firstn k fetch_events /\ is_system_error (res_of plain)) \/
   (exists rest, log_of plain = fetch_events ++ rest /\
                 forall q, ~ In (EvQuery q) rest)).
Proof.
  intros Hch. simpl.
  assert (Hsim : sim_out same_tasks (run_pipeline E t tid w) (run_pipeline_disturbed E changes t tid w)).
  { unfold run_pipeline, run_pipeline_disturbed, invoke. simpl entry_point.
    apply bind_sim; [ apply sim_out_refl | ].
    intros s0 v1 v2 Hv. apply bind_sim.
    - apply run_from_disturbed_sim; assumption.
    - intros sf u1 u2 Hu. apply respects_ret. exact Hu. }
  destruct Hsim as (Hr & Hl & _ & Hk & _).
  split; [ symmetry; exact Hr | ]. split; [ symmetry; exact Hl | ].
  split; [ symmetry; exact Hk | ].
  split.
  { intros n s st Hn. simpl.
    destruct (respects_stage E any_store n s Hn w {| db := st; ticks := ticks w |})
      as (Hr' & Hl' & _); [ split; [ reflexivity | exact I ] | ].
    split; symmetry; assumption. }
  split.
  { unfold fetch_events. simpl.
    repeat (constructor; [ simpl; intuition discriminate | ]). constructor. }
  destruct (run_pipeline E t tid w) as [[r w'] l] eqn:Hrun.
  unfold res_of, log_of. simpl.
  apply run_pipeline_shape in Hrun. inversion Hrun; subst.
  - left. exists k. split; [ reflexivity | exists e; reflexivity ].
  - right. eexists. split; [ reflexivity | ]. intros q Hin.
    apply in_app_or in Hin. destruct Hin as [Hin | Hin].
    + eapply no_query_in_done_log; eauto.
    + match goal with Ht : _ \/ _ |- _ => destruct Ht as [-> | (c0 & -> & _)] end;
        simpl in Hin; intuition discriminate.
  - right. eexists. split; [ reflexivity | ]. intros q Hin.
    apply in_app_or in Hin. destruct Hin as [Hin | Hin].
    + eapply no_query_in_done_log; eauto.
    + simpl in Hin; intuition discriminate.
  - right. eexists. split; [ reflexivity | ]. intros q Hin.
    apply in_app_or in Hin. destruct Hin as [Hin | Hin].
    + eapply no_query_in_done_log; eauto.
    + simpl in Hin; intuition discriminate.
  - right. eexists. split; [ reflexivity | ]. intros q Hin.
    apply in_app_or in Hin. destruct Hin as [Hin | Hin].
    + eapply no_query_in_done_log; eauto.
    + simpl in Hin; intuition discriminate.
Qed.

Lemma store_changes_after_fetch_are_invisible_witness :
  let E := Sample.env_with "v1" Sample.qa_accept_bare in
  res_of (run_pipeline_disturbed E (fun _ => Sample.wipe_grounding)
            Sample.transcript VNone Sample.world_v1)
  = res_of (run_pipeline E Sample.transcript VNone Sample.world_v1).
Proof.
  intros E.
  apply (store_changes_after_fetch_are_invisible E (fun _ => Sample.wipe_grounding)
           Sample.transcript VNone Sample.world_v1).
  intros k st. repeat split.
Defined.

(* ====================================================================== *)
(** * Further properties of the code *)
(* ====================================================================== *)

(** ** Loading the context *)

(** X1.  The three loaders only read: each leaves the world as it found
    it, whatever it returns. *)
Theorem loaders_leave_the_world_alone w :
  world_of (fetch_db_context w) = w /\
  world_of (fetch_active_policy w) = w /\
  world_of (fetch_priority_weights w) = w.
Proof.
  split; [ | split ].
  - unfold fetch_db_context, get_db_connection, bind, get_db, emit, ret, raise.
    destruct (online (db w)); reflexivity.
  - rewrite fetch_active_policy_spec.
    destruct (online (db w)); [ | reflexivity ].
    destruct (latest_active _) as [p | ]; [ | reflexivity ].
    destruct (policy_data_col p); reflexivity.
  - unfold fetch_priority_weights, get_db_connection, bind, get_db, emit, ret, raise.
    destruct (online (db w)); reflexivity.
Qed.

(** X2.  When the store cannot be reached, a run ends in
    [OperationalError] at once: no query is sent, no node is entered and
    the generation service is not called. *)
Theorem unreachable_store_stops_the_run E t tid w :
  online (db w) = false ->
  fetch_db_context w = (Err OperationalError, w, []) /\
  fetch_active_policy w = (Err OperationalError, w, []) /\
  fetch_priority_weights w = (Err OperationalError, w, []) /\
  run_pipeline E t tid w = (Err OperationalError, w, []).
Proof.
  intros Hoff.
  assert (Hc : fetch_db_context w = (Err OperationalError, w, [])).
  { unfold fetch_db_context, get_db_connection, bind, get_db, emit, ret, raise.
    rewrite Hoff. reflexivity. }
  split; [ exact Hc | ].
  split; [ rewrite fetch_active_policy_spec, Hoff; reflexivity | ].
  split.
  { unfold fetch_priority_weights, get_db_connection, bind, get_db, emit, ret, raise.
    rewrite Hoff. reflexivity. }
  unfold run_pipeline, fetch_initial_state.
  unfold bind at 1. unfold bind at 1. rewrite Hc. reflexivity.
Qed.

Lemma unreachable_store_stops_the_run_witness :
  run_pipeline (Sample.env_with "v1" Sample.qa_reject) Sample.transcript VNone
    Sample.world_offline
  = (Err OperationalError, Sample.world_offline, []).
Proof.
  apply (unreachable_store_stops_the_run (Sample.env_with "v1" Sample.qa_reject)
           Sample.transcript VNone Sample.world_offline).
  reflexivity.
Defined.

(** X3.  The policy query returns an active row whose effective date no
    other active row exceeds. *)
Theorem latest_active_is_latest l p :
  latest_active l = Some p ->
  In p l /\ policy_active p = true /\
  forall q, In q l -> policy_active q = true ->
            (effective_date q <= effective_date p)%Z.
Proof.
  revert p. induction l as [ | a l IH]; intros p H; simpl in H; [ discriminate | ].
  destruct (policy_active a) eqn:Ha.
  - destruct (latest_active l) as [q0 | ] eqn:Hl.
    + destruct (IH q0 eq_refl) as (Hin & Hact & Hmax).
      destruct (effective_date a <? effective_date q0)%Z eqn:Hlt;
        inversion H; subst p; clear H.
      * apply Z.ltb_lt in Hlt.
        split; [ right; exact Hin | ]. split; [ exact Hact | ].
        intros q [<- | Hq] Hqa; [ lia | apply Hmax; assumption ].
      * apply Z.ltb_ge in Hlt.
        split; [ left; reflexivity | ]. split; [ exact Ha | ].
        intros q [<- | Hq] Hqa; [ lia | ].
        specialize (Hmax q Hq Hqa). lia.
    + inversion H; subst p; clear H.
      split; [ left; reflexivity | ]. split; [ exact Ha | ].
      intros q [<- | Hq] Hqa; [ lia | ].
      exfalso. clear IH. induction l as [ | b l IHl]; [ contradiction | ].
      simpl in Hl. destruct (policy_active b) eqn:Hb.
      * destruct (latest_active l) as [x | ];
          [ destruct (effective_date b <? effective_date x)%Z | ]; discriminate.
      * destruct Hq as [<- | Hq]; [ congruence | apply IHl; assumption ].
  - destruct (IH p H) as (Hin & Hact & Hmax).
    split; [ right; exact Hin | ]. split; [ exact Hact | ].
    intros q [<- | Hq] Hqa; [ congruence | apply Hmax; assumption ].
Qed.

Lemma latest_active_is_latest_witness :
  In Sample.policy_v1 [Sample.retired_policy; Sample.policy_v1] /\
  policy_active Sample.policy_v1 = true /\
  forall q, In q [Sample.retired_policy; Sample.policy_v1] ->
            policy_active q = true ->
            (effective_date q <= effective_date Sample.policy_v1)%Z.
Proof.
  apply (latest_active_is_latest [Sample.retired_policy; Sample.policy_v1]
           Sample.policy_v1).
  reflexivity.
Defined.

Lemma dict_get_none_not_key d k : ~ In k (map fst d) -> dict_get d k = None.
Proof.
  induction d as [ | [k0 v0] d IH]; simpl; intros H; [ reflexivity | ].
  destruct (String.eqb_spec k0 k) as [-> | Hne]; [ exfalso; apply H; auto | ].
  apply IH. intros Hin. apply H. right. exact Hin.
Qed.

Lemma dict_unpack_onto_get data : forall base k,
  NoDup (map fst data) ->
  dict_get (dict_unpack_onto base data) k =
    match dict_get data k with
    | Some v => Some v
    | None => dict_get base k
    end.
Proof.
  unfold dict_unpack_onto.
  induction data as [ | [k0 v0] data IH]; intros base k Hnd; simpl; [ reflexivity | ].
  inversion Hnd as [ | ? ? Hnotin Hnd']; subst.
  rewrite IH by assumption.
  destruct (String.eqb_spec k0 k) as [-> | Hne].
  - rewrite (dict_get_none_not_key _ _ Hnotin). apply dict_get_set_same.
  - destruct (dict_get data k); [ reflexivity | ].
    apply dict_get_set_other. intros Heq. apply Hne. symmetry. exact Heq.
Qed.

(** X4.  With an active policy whose data is a mapping, the snapshot is
    the data with a [policy_version] field: every field of the data is in
    the snapshot unchanged, a [policy_version] inside the data replaces the
    one of the row, and the snapshot has no other field. *)
Theorem policy_snapshot_fields w p data :
  online (db w) = true ->
  latest_active (task_policies (db w)) = Some p ->
  policy_data_col p = VDict data ->
  NoDup (map fst data) ->
  exists snap,
    fetch_active_policy w = (OK (VDict snap), w, [EvQuery QPolicy]) /\
    (forall k v, dict_get data k = Some v -> dict_get snap k = Some v) /\
    (dict_get data "policy_version" = None ->
     dict_get snap "policy_version" = Some (policy_version_col p)) /\
    (forall k, k <> "policy_version" -> dict_get data k = None ->
               dict_get snap k = None).
Proof.
  intros Hon Hp Hd Hnd.
  eexists. split.
  { rewrite fetch_active_policy_spec, Hon, Hp, Hd. reflexivity. }
  split; [ | split ].
  - intros k v Hk. rewrite dict_unpack_onto_get by assumption. now rewrite Hk.
  - intros Hk. rewrite dict_unpack_onto_get by assumption. rewrite Hk. reflexivity.
  - intros k Hne Hk. rewrite dict_unpack_onto_get by assumption. rewrite Hk.
    cbn [dict_get].
    destruct (String.eqb_spec "policy_version" k) as [Heq | _]; [ | reflexivity ].
    exfalso. apply Hne. symmetry. exact Heq.
Qed.

Lemma policy_snapshot_fields_witness :
  exists snap,
    fetch_active_policy Sample.world_v1
      = (OK (VDict snap), Sample.world_v1, [EvQuery QPolicy]) /\
    dict_get snap "policy_version" = Some (VStr "v1").
Proof.
  destruct (policy_snapshot_fields Sample.world_v1 Sample.policy_v1
              [("rules", VDict [("max_due_days", VInt 30)])])
    as (snap & Hf & _ & Hv & _).
  - reflexivity.
  - reflexivity.
  - reflexivity.
  - repeat constructor. simpl. tauto.
  - exists snap. split; [ exact Hf | apply Hv; reflexivity ].
Defined.



(** ** Saving a task *)

(** Look at the next key [task_row] reads in [H]. *)
Ltac row_key H d k :=
  let Hk := fresh "Hk" in
  destruct (dict_get d k) eqn:Hk; cbn in H.

Ltac row_fields H d :=
  let Hef := fresh "Hef" in
  destruct (dict_get d "enriched_fields") as [[ | | | | | | ?] | ] eqn:Hef; cbn in H.

Lemma task_row_ok_inv task tid r :
  task_row task tid = OK r ->
  exists d, task = VDict d /\
            (forall k, In k required_keys -> dict_get d k <> None) /\
            enriched_fields_ok d.
Proof.
  intros Hr.
  destruct task as [ | | | | | | d]; try discriminate Hr.
  exists d. split; [ reflexivity | ].
  unfold task_row, py_get, py_getitem in Hr. cbn in Hr.
  unfold enriched_fields_ok.
  row_key Hr d "description"; [ | discriminate Hr ].
  row_fields Hr d; try discriminate Hr.
  all: row_key Hr d "priority_score"; [ | discriminate Hr ].
  all: row_key Hr d "priority_level"; [ | discriminate Hr ].
  all: row_key Hr d "lineage_metadata"; [ | discriminate Hr ].
  all: row_key Hr d "qa_metadata"; [ | discriminate Hr ].
  all: row_key Hr d "prioritization_metadata"; [ | discriminate Hr ].
  all: split; [ | exact I ].
  all: intros k Hin; simpl in Hin;
    repeat (destruct Hin as [<- | Hin]; [ congruence | ]); contradiction.
Qed.

Lemma task_row_err_inv task tid e :
  task_row task tid = Err e ->
  e = AttributeError \/
  exists d k, task = VDict d /\ In k required_keys /\
              dict_get d k = None /\ e = KeyError k.
Proof.
  intros Hrow.
  destruct task as [ | | | | | | d]; try (left; cbv in Hrow; congruence).
  assert (Hmiss : forall k, In k required_keys -> dict_get d k = None ->
            e = KeyError k ->
            e = AttributeError \/
            exists d0 k0, VDict d = VDict d0 /\ In k0 required_keys /\
                          dict_get d0 k0 = None /\ e = KeyError k0).
  { intros k Hin Hk He. right. exists d, k. auto. }
  unfold task_row, py_get, py_getitem in Hrow. cbn in Hrow.
  row_key Hrow d "description";
    [ | eapply Hmiss; [ | eassumption | congruence ]; simpl; tauto ].
  row_fields Hrow d; try (left; congruence).
  all: row_key Hrow d "priority_score";
    [ | eapply Hmiss; [ | eassumption | congruence ]; simpl; tauto ].
  all: row_key Hrow d "priority_level";
    [ | eapply Hmiss; [ | eassumption | congruence ]; simpl; tauto ].
  all: row_key Hrow d "lineage_metadata";
    [ | eapply Hmiss; [ | eassumption | congruence ]; simpl; tauto ].
  all: row_key Hrow d "qa_metadata";
    [ | eapply Hmiss; [ | eassumption | congruence ]; simpl; tauto ].
  all: row_key Hrow d "prioritization_metadata";
    [ | eapply Hmiss; [ | eassumption | congruence ]; simpl; tauto ].
  all: discriminate Hrow.
Qed.

(** X6.  The row of a task can be built exactly when the task is a
    dictionary that has the six keys read with [task[...]] and whose
    [enriched_fields], when present, is a dictionary; every other key may
    be missing. *)
Theorem task_row_ok_iff task tid :
  (exists r, task_row task tid = OK r) <->
  exists d, task = VDict d /\
            (forall k, In k required_keys -> dict_get d k <> None) /\
            enriched_fields_ok d.
Proof.
  split.
  - intros (r & Hr). eapply task_row_ok_inv; eassumption.
  - intros (d & -> & Hreq & Hef0). unfold enriched_fields_ok in Hef0.
    assert (H1 := Hreq "description"). assert (H2 := Hreq "priority_score").
    assert (H3 := Hreq "priority_level"). assert (H4 := Hreq "lineage_metadata").
    assert (H5 := Hreq "qa_metadata"). assert (H6 := Hreq "prioritization_metadata").
    unfold required_keys in *. simpl in H1, H2, H3, H4, H5, H6. clear Hreq.
    unfold task_row, py_get, py_getitem. cbn.
    destruct (dict_get d "description"); [ | exfalso; tauto ].
    destruct (dict_get d "priority_score"); [ | exfalso; tauto ].
    destruct (dict_get d "priority_level"); [ | exfalso; tauto ].
    destruct (dict_get d "lineage_metadata"); [ | exfalso; tauto ].
    destruct (dict_get d "qa_metadata"); [ | exfalso; tauto ].
    destruct (dict_get d "prioritization_metadata"); [ | exfalso; tauto ].
    clear H1 H2 H3 H4 H5 H6.
    destruct (dict_get d "enriched_fields") as [[ | | | | | | ?] | ];
      try contradiction; cbn; eexists; reflexivity.
Qed.

Lemma task_row_ok_iff_witness :
  exists r, task_row (Sample.prioritization_reply "v1") VNone = OK r.
Proof.
  apply (task_row_ok_iff (Sample.prioritization_reply "v1") VNone).
  eexists. split; [ reflexivity | ]. split.
  - intros k Hk. simpl in Hk.
    repeat (destruct Hk as [<- | Hk]; [ discriminate | ]). contradiction.
  - exact I.
Defined.

Lemma adapt_err : forall v e,
  adapt v = Err e -> e = ProgrammingError \/ e = ValueError.
Proof.
  fix IH 1. intros [ | b | z | f | s | items | d] e; simpl; try discriminate.
  - destruct (has_nul s); intros H; inversion H; auto.
  - induction items as [ | x rest IHrest]; [ discriminate | ].
    destruct (adapt x) as [[] | e0] eqn:Hx; [ exact IHrest | ].
    intros H. inversion H; subst. exact (IH x e Hx).
  - intros H. inversion H. auto.
Qed.

Lemma adapt_all_inv vs :
  match adapt_all vs with
  | OK _ => forall v, In v vs -> adapt v = OK tt
  | Err e => exists v, In v vs /\ adapt v = Err e
  end.
Proof.
  induction vs as [ | v vs IH]; simpl; [ intros v [] | ].
  destruct (adapt v) as [[] | e] eqn:Hv.
  - destruct (adapt_all vs) as [[] | e].
    + intros x [<- | Hx]; auto.
    + destruct IH as (x & Hx & He). exists x. auto.
  - exists v. auto.
Qed.

Lemma adapt_row_ok r c :
  adapt_row r = OK tt -> In c unwrapped_columns -> adapt (col r c) = OK tt.
Proof.
  unfold adapt_row. intros Ha Hc.
  pose proof (adapt_all_inv (map (col r) unwrapped_columns)) as Hall.
  rewrite Ha in Hall. apply Hall. apply in_map. exact Hc.
Qed.

Lemma adapt_row_err r e :
  adapt_row r = Err e ->
  (e = ProgrammingError \/ e = ValueError) /\
  exists c, In c unwrapped_columns /\ adapt (col r c) = Err e.
Proof.
  unfold adapt_row. intros Ha.
  pose proof (adapt_all_inv (map (col r) unwrapped_columns)) as Hall.
  rewrite Ha in Hall. destruct Hall as (v & Hv & He).
  split; [ eapply adapt_err; exact He | ].
  apply in_map_iff in Hv. destruct Hv as (c & <- & Hc). exists c. auto.
Qed.

(** X7.  A save that fails writes nothing: the world is unchanged and
    nothing is logged.  The connection is tried first, so on an
    unreachable store the error is [OperationalError] whatever the task.
    Otherwise the error comes from building the values or from sending
    them.  Building fails with [AttributeError] (the task or its
    [enriched_fields] is not a dictionary) or with the [KeyError] of a
    required key the task lacks.  Sending fails when one of the nine
    values passed as they are cannot be adapted: with [ProgrammingError]
    (a dictionary, also inside a list) or with [ValueError] (a string with
    a NUL character); the six values wrapped in [Json] never stop it. *)
Theorem failed_save_writes_nothing task tid w e w' l :
  save_task_to_db task tid w = (Err e, w', l) ->
  w' = w /\ l = [] /\
  (online (db w) = false -> e = OperationalError) /\
  (online (db w) = true ->
   (task_row task tid = Err e /\
    (e = AttributeError \/
     exists d k, task = VDict d /\ In k required_keys /\
                 dict_get d k = None /\ e = KeyError k)) \/
   (exists r c, task_row task tid = OK r /\
                In c unwrapped_columns /\ adapt (col r c) = Err e /\
                (e = ProgrammingError \/ e = ValueError))).
Proof.
  rewrite save_task_to_db_spec. unfold insert_values.
  destruct (online (db w)) eqn:Hon.
  - destruct (task_row task tid) as [r | e0] eqn:Hrow.
    + destruct (adapt_row r) as [[] | e0] eqn:Ha; intros H; inversion H; subst.
      split; [ reflexivity | ]. split; [ reflexivity | ]. split; [ discriminate | ].
      intros _. right. apply adapt_row_err in Ha. destruct Ha as (Hk & c & Hc & He).
      exists r, c. auto.
    + intros H; inversion H; subst.
      split; [ reflexivity | ]. split; [ reflexivity | ]. split; [ discriminate | ].
      intros _. left. split; [ reflexivity | ].
      eapply task_row_err_inv; eassumption.
  - intros H; inversion H; subst. repeat split; auto. discriminate.
Qed.

Lemma failed_save_writes_nothing_witness :
  world_of (save_task_to_db Sample.unsendable_reply VNone Sample.world_v1)
  = Sample.world_v1.
Proof.
  symmetry.
  apply (failed_save_writes_nothing Sample.unsendable_reply VNone Sample.world_v1
           ProgrammingError _ []).
  vm_compute. reflexivity.
Defined.

Lemma col_cons_other k v r c : k <> c -> col ((k, v) :: r) c = col r c.
Proof.
  intros Hne. unfold col. simpl. destruct (String.eqb_spec k c); [ contradiction | ].
  reflexivity.
Qed.

(** X8.  A save that succeeds appends exactly one row to [tasks] and
    touches nothing else: the six other tables and the connection are as
    before.  The row carries the id the sequence held, which is the value
    returned and logged, the transcript id given by the caller, the
    task's own description, score and level, and the status [pending]
    whatever the task says about its status; and each of the nine values
    sent as they are is one the driver adapts, so none is a dictionary. *)
Theorem saved_row_contents task tid w id w' l :
  save_task_to_db task tid w = (OK id, w', l) ->
  exists d r,
    task = VDict d /\
    tasks (db w') = tasks (db w) ++ [r] /\
    id = task_seq (db w) /\
    task_seq (db w') = (id + 1)%Z /\
    l = [EvInsert id] /\
    ticks w' = ticks w /\
    participants (db w') = participants (db w) /\
    patients (db w') = patients (db w) /\
    task_categories (db w') = task_categories (db w) /\
    category_sla (db w') = category_sla (db w) /\
    task_policies (db w') = task_policies (db w) /\
    priority_weights_tbl (db w') = priority_weights_tbl (db w) /\
    online (db w') = online (db w) /\
    dict_get r "task_id" = Some (VInt id) /\
    dict_get r "transcript_id" = Some tid /\
    dict_get r "status" = Some (VStr "pending") /\
    dict_get r "description" = dict_get d "description" /\
    dict_get r "priority_score" = dict_get d "priority_score" /\
    dict_get r "priority_level" = dict_get d "priority_level" /\
    dict_get r "qa_metadata" = dict_get d "qa_metadata" /\
    forall c, In c unwrapped_columns -> adapt (col r c) = OK tt.
Proof.
  rewrite save_task_to_db_spec.
  destruct (online (db w)) eqn:Hon; [ | discriminate ].
  destruct (insert_values task tid) as [r | e0] eqn:Hiv; [ | discriminate ].
  apply insert_values_ok in Hiv. destruct Hiv as [Hrow Ha].
  intros H. inversion H; clear H; subst.
  assert (Hsent : forall c, In c unwrapped_columns ->
            adapt (col (("task_id", VInt (task_seq (db w))) :: r) c) = OK tt).
  { intros c Hc. rewrite col_cons_other.
    - apply adapt_row_ok; assumption.
    - simpl in Hc.
      repeat (destruct Hc as [<- | Hc]; [ discriminate | ]). contradiction. }
  clear Ha.
  destruct task as [ | | | | | | d]; try (cbv in Hrow; discriminate Hrow).
  exists d, (("task_id", VInt (task_seq (db w))) :: r).
  unfold task_row, py_get, py_getitem in Hrow. cbn in Hrow.
  row_key Hrow d "description"; [ | discriminate Hrow ].
  row_fields Hrow d; try discriminate Hrow.
  all: row_key Hrow d "priority_score"; [ | discriminate Hrow ].
  all: row_key Hrow d "priority_level"; [ | discriminate Hrow ].
  all: row_key Hrow d "lineage_metadata"; [ | discriminate Hrow ].
  all: row_key Hrow d "qa_metadata"; [ | discriminate Hrow ].
  all: row_key Hrow d "prioritization_metadata"; [ | discriminate Hrow ].
  all: inversion Hrow; clear Hrow; subst r.
  all: repeat (split; [ first [ reflexivity | assumption ] | ]).
  all: exact Hsent.
Qed.

Lemma saved_row_contents_witness :
  exists d r,
    (Sample.prioritization_reply "v1") = VDict d /\
    tasks (db (world_of (save_task_to_db (Sample.prioritization_reply "v1") VNone Sample.world_v1)))
    = tasks (db Sample.world_v1) ++ [r].
Proof.
  destruct (saved_row_contents (Sample.prioritization_reply "v1") VNone Sample.world_v1
              (task_seq (db Sample.world_v1))
              (world_of (save_task_to_db (Sample.prioritization_reply "v1") VNone Sample.world_v1))
              (log_of (save_task_to_db (Sample.prioritization_reply "v1") VNone Sample.world_v1)))
    as (d & r & H1 & H2 & _).
  - vm_compute. reflexivity.
  - exists d, r. split; assumption.
Defined.

(** ** Replies that are not objects *)

Ltac agent_blocks :=
  repeat match goal with
  | H : invoke_agent _ _ _ _ = (_, _, _) |- _ =>
      apply invoke_agent_inv in H;
      destruct H as (? & ? & [(? & ? & ?) | (? & ? & ?)]); subst
  end.

(** The reply a log shows for an agent. *)
Ltac the_reply Hin :=
  simpl in Hin;
  repeat (destruct Hin as [Hin | Hin];
          [ try discriminate Hin; inversion Hin; clear Hin; subst | ]);
  try contradiction.

Ltac reply_known Hc :=
  repeat match goal with
  | H : match json_loads _ _ with _ => _ end |- _ =>
      rewrite Hc in H; try discriminate H; try (inversion H; clear H; subst)
  end.

Lemma append_lineage_non_object E n s task w :
  (forall d, task <> VDict d) ->
  append_lineage E n s task w = (Err TypeError, w, []).
Proof.
  intros Hv. destruct task; try reflexivity. exfalso. eapply Hv. reflexivity.
Qed.

Ltac lineage_log :=
  repeat match goal with
  | H : append_lineage _ _ _ _ ?w = (_, _, ?l) |- _ =>
      is_var l;
      let H' := fresh in
      pose proof (append_lineage_inv _ _ _ _ _ _ _ _ H) as H';
      destruct H' as (? & ? & _); subst l
  end.

Ltac lineage_fails :=
  try match goal with
  | H : append_lineage _ _ _ _ _ = _ |- _ =>
      rewrite append_lineage_non_object in H by discriminate;
      prim_inv H; try congruence
  end.

(** X9.  A reply that is valid JSON but not an object (a list, a string,
    a number, [null]) stops extraction and normalization with [TypeError]
    and QA with [AttributeError]; prioritization does not look into its
    reply and returns it as the final task of a completed state.  The save
    and rejection nodes never call the service.  The store is untouched in
    every case. *)
Theorem non_object_reply_raises E n s w r w' l c v :
  node_fn (build_pipeline_graph E) n s w = (r, w', l) ->
  In (EvInvoke n c) l ->
  json_loads E c = Some v ->
  (forall d, v <> VDict d) ->
  db w' = db w /\
  match n with
  | extraction | normalization => r = Err TypeError
  | qa => r = Err AttributeError
  | prioritization => r = OK (set_status completed (set_final_task v s))
  | save | rejection => False
  end.
Proof.
  intros Hrun Hin Hc Hv.
  destruct n; simpl in Hrun.
  - unfold extraction_node in Hrun. minv; agent_blocks; simpl in *.
    all: lineage_log.
    all: the_reply Hin.
    all: reply_known Hc.
    all: try (split; [ congruence | ]).
    all: destruct v as [ | | | | | | d]; try (exfalso; eapply Hv; reflexivity).
    all: simpl in *; minv; try reflexivity; try discriminate.
    all: lineage_fails.
  - unfold normalization_node in Hrun. minv; agent_blocks; simpl in *.
    all: lineage_log.
    all: the_reply Hin.
    all: reply_known Hc.
    all: try (split; [ congruence | ]).
    all: rewrite append_lineage_non_object in * by assumption.
    all: minv; congruence.
  - unfold qa_node in Hrun. minv; agent_blocks; simpl in *.
    all: the_reply Hin.
    all: reply_known Hc.
    all: try (split; [ congruence | ]).
    all: destruct v as [ | | | | | | d]; try (exfalso; eapply Hv; reflexivity).
    all: simpl in *; minv; try reflexivity; try discriminate.
  - unfold prioritization_node in Hrun. minv; agent_blocks; simpl in *.
    all: the_reply Hin.
    all: reply_known Hc.
    all: split; [ congruence | reflexivity ].
  - rewrite save_node_spec in Hrun.
    destruct (online (db w));
      [ destruct (insert_values (final_task s) (transcript_id s)) | ];
      prim_inv Hrun; the_reply Hin.
  - rewrite rejection_node_spec in Hrun. prim_inv Hrun. the_reply Hin.
Qed.

Lemma non_object_reply_raises_witness :
  res_of (normalization_node (Sample.scripted [("normalization", VList [])])
            Sample.s0 Sample.world_v1) = Err TypeError.
Proof.
  set (E := Sample.scripted [("normalization", VList [])]).
  set (s := Sample.s0).
  destruct (non_object_reply_raises E normalization s Sample.world_v1
              (res_of (normalization_node E s Sample.world_v1))
              (world_of (normalization_node E s Sample.world_v1))
              (log_of (normalization_node E s Sample.world_v1))
              "normalization" (VList [])) as [_ H].
  - reflexivity.
  - vm_compute. right. left. reflexivity.
  - vm_compute. reflexivity.
  - discriminate.
  - exact H.
Defined.

(** ** What QA writes, and where *)

(** X10.  When QA does not reject, it stores [qa_metadata] (the reply's,
    or an empty record) in the very object it adopts as the final task.
    Without a [validated_task] in the reply that object is the state's
    normalized task, so the normalized task the stage leaves behind is the
    final task, [qa_metadata] included; with one, the normalized task is
    left alone and the recorded reply shows the same object under
    [validated_task]. *)
Theorem qa_accepting_writes_through E s w s' w' l :
  qa_node E s w = (OK s', w', l) ->
  status s' <> rejected ->
  exists c d,
    l = [EvEnter qa; EvInvoke qa c] /\ json_loads E c = Some (VDict d) /\
    py_getitem (final_task s') "qa_metadata" = OK (get_or d "qa_metadata" (VDict [])) /\
    match dict_get d "validated_task" with
    | None => normalized_task s' = final_task s' /\ qa_result s' = VDict d
    | Some _ => normalized_task s' = normalized_task s /\
                py_getitem (qa_result s') "validated_task" = OK (final_task s')
    end.
Proof.
  intros Hrun Hst.
  apply qa_node_spec in Hrun. destruct Hrun as [_ Ho].
  apply agent_outcome_ok in Ho. destruct Ho as (c & v & Hl & Hc & (d & -> & Hq)).
  exists c, d. split; [ exact Hl | ]. split; [ exact Hc | ].
  destruct (py_eq_str (get_or d "qa_decision" VNone) "rejected").
  - subst s'. exfalso. apply Hst. reflexivity.
  - destruct Hq as (bd & _ & ->). unfold qa_accepted_state.
    destruct (dict_get d "validated_task"); simpl; rewrite !dict_get_set_same; auto.
Qed.

Lemma qa_accepting_writes_through_witness :
  exists s' w',
    qa_node Sample.env_lossy (fst (Sample.at_qa Sample.env_lossy))
      (snd (Sample.at_qa Sample.env_lossy)) = (OK s', w', [EvEnter qa; EvInvoke qa "qa"]) /\
    normalized_task s' = final_task s'.
Proof.
  set (E := Sample.env_lossy).
  destruct (qa_node E (fst (Sample.at_qa E)) (snd (Sample.at_qa E)))
    as [[[s' | e] w'] l] eqn:Hrun; [ | vm_compute in Hrun; discriminate Hrun ].
  destruct (qa_accepting_writes_through E _ _ s' w' l Hrun)
    as (c & d & Hl & Hc & _ & Hm).
  - vm_compute in Hrun. inversion Hrun. discriminate.
  - exists s', w'. subst l.
    assert (Hc0 : c = "qa").
    { vm_compute in Hrun. inversion Hrun. reflexivity. }
    subst c. split; [ reflexivity | ].
    vm_compute in Hc. inversion Hc; subst d. simpl in Hm. apply Hm.
Defined.

(** ** From the last reply to the store *)

Section LastReply.

Variable E : env.

Lemma run_to_qa_inv t tid w r wq lq :
  run_to_qa E t tid w = (r, wq, lq) ->
  db wq = db w /\
  (forall c, ~ In (EvInvoke prioritization c) lq) /\
  forall sq, r = OK sq -> online (db w) = true /\ transcript_id sq = tid.
Proof.
  intros Hq. unfold run_to_qa, stages_to_qa in Hq. destruct r as [sq | e].
  all: minv; use_specs.
  all: split; [ congruence | ].
  all: split.
  all: try (intros sq0 Hsq; discriminate Hsq).
  all: try (intros c0 Hin;
            repeat (apply in_app_or in Hin; destruct Hin as [Hin | Hin]);
            try (eapply no_invoke_in_fetch_prefix; exact Hin);
            try (eapply no_invoke_in_fetch; exact Hin);
            repeat match goal with
            | H : _ = _ \/ _ |- _ => destruct H as [H | (? & H & _)]
            end; subst; simpl in Hin;
            repeat (destruct Hin as [Hin | Hin]; [ discriminate Hin | ]);
            contradiction).
  intros sq0 Hsq. inversion Hsq; subst sq0. split; [ assumption | ].
  repeat match goal with
  | H : extraction_ok _ _ _ |- _ => apply extraction_ok_transcript_id in H
  | H : normalization_ok _ _ _ |- _ => apply normalization_ok_transcript_id in H
  | H : qa_ok _ _ _ |- _ => apply qa_ok_transcript_id in H
  end.
  simpl in *. congruence.
Qed.

Lemma stages_after_qa_inv s w r w' l c v :
  stages_after_qa E s w = (r, w', l) ->
  In (EvInvoke prioritization c) l ->
  json_loads E c = Some v ->
  exists w1 l1,
    db w1 = db w /\
    save_node (set_status completed (set_final_task v s)) w1 = (r, w', l1).
Proof.
  intros Hrun Hin Hc. unfold stages_after_qa in Hrun.
  destruct (status_eqb (status s) rejected).
  - rewrite rejection_node_spec in Hrun. prim_inv Hrun. the_reply Hin.
  - apply bind_inv in Hrun.
    destruct Hrun as [(e & Hp & ->) | (s4 & w1 & l1 & l2 & Hp & Hs & ->)].
    + unfold prioritization_node in Hp. minv; agent_blocks; simpl in *.
      all: the_reply Hin.
      all: reply_known Hc.
    + assert (Hnone : forall c0, ~ In (EvInvoke prioritization c0) l2).
      { intros c0 Hin0. rewrite save_node_spec in Hs.
        destruct (online (db w1));
          [ destruct (insert_values (final_task s4) (transcript_id s4)) | ];
          prim_inv Hs; the_reply Hin0. }
      apply in_app_or in Hin. destruct Hin as [Hin | Hin];
        [ | exfalso; eapply Hnone; exact Hin ].
      unfold prioritization_node in Hp. minv; agent_blocks; simpl in *.
      all: the_reply Hin.
      all: reply_known Hc.
      exists w1, l2. split; [ congruence | exact Hs ].
Qed.

(** X11.  What a run stores is the reply of the prioritization agent and
    nothing else: once that reply is read, the outcome is decided by the
    values of the INSERT built from it and adapted by the driver.  When
    they can be built and adapted the run completes, the task of the
    result is the reply itself and the store gains its row; when they
    cannot, the run ends in the error of building or adapting them (a
    field that QA or normalization had set but the reply does not repeat
    counts as missing, and an object where a plain value is sent is not
    adapted) and the store is as before. *)
Theorem run_saves_the_last_reply t tid w c v :
  In (EvInvoke prioritization c) (log_of (run_pipeline E t tid w)) ->
  json_loads E c = Some v ->
  let run := run_pipeline E t tid w in
  match insert_values v tid with
  | OK r =>
      res_of run = OK (VDict [("status", VStr "completed");
                              ("task_id", VInt (task_seq (db w)));
                              ("task", v)]) /\
      db (world_of run) = insert_task r (db w)
  | Err e => res_of run = Err e /\ db (world_of run) = db w
  end.
Proof.
  intros Hin Hc. simpl.
  destruct (run_pipeline E t tid w) as [[r w'] l] eqn:Hrun.
  unfold res_of, world_of, log_of in *. simpl in *.
  rewrite run_pipeline_split in Hrun.
  apply bind_inv in Hrun.
  destruct Hrun as [(e & Hq & ->) | (sq & wq & lq & l2 & Hq & Hrest & ->)].
  - apply run_to_qa_inv in Hq. destruct Hq as (_ & Hno & _).
    exfalso. eapply Hno. exact Hin.
  - apply run_to_qa_inv in Hq. destruct Hq as (Hdb & Hno & Hok).
    destruct (Hok sq eq_refl) as [Hon Htid]. clear Hok.
    apply in_app_or in Hin. destruct Hin as [Hin | Hin];
      [ exfalso; eapply Hno; exact Hin | ].
    apply bind_inv in Hrest.
    destruct Hrest as [(e & Hs & ->) | (sf & wf & l3 & l4 & Hs & Hret & ->)].
    + destruct (stages_after_qa_inv _ _ _ _ _ _ _ Hs Hin Hc)
        as (w1 & l1 & Hdb1 & Hsave).
      rewrite save_node_spec in Hsave. simpl in Hsave. rewrite Htid in Hsave.
      replace (online (db w1)) with true in Hsave by congruence.
      destruct (insert_values v tid); apply triple_inv in Hsave;
        destruct Hsave as (Hr & Hw & _); [ discriminate Hr | ].
      inversion Hr; subst. split; [ reflexivity | congruence ].
    + unfold ret in Hret. apply triple_inv in Hret.
      destruct Hret as (<- & <- & <-). rewrite app_nil_r in Hin.
      destruct (stages_after_qa_inv _ _ _ _ _ _ _ Hs Hin Hc)
        as (w1 & l1 & Hdb1 & Hsave).
      rewrite save_node_spec in Hsave. simpl in Hsave. rewrite Htid in Hsave.
      replace (online (db w1)) with true in Hsave by congruence.
      destruct (insert_values v tid); apply triple_inv in Hsave;
        destruct Hsave as (Hr & Hw & _); [ | discriminate Hr ].
      inversion Hr; subst sf. subst wf. simpl. split; [ | congruence ].
      unfold pipeline_result. simpl. congruence.
Qed.

End LastReply.

Lemma run_saves_the_last_reply_witness :
  res_of (run_pipeline Sample.env_lossy Sample.transcript VNone Sample.world_v1)
  = OK (VDict [("status", VStr "completed");
               ("task_id", VInt (task_seq (db Sample.world_v1)));
               ("task", Sample.prioritization_reply "v1")]).
Proof.
  assert (H := run_saves_the_last_reply Sample.env_lossy Sample.transcript VNone
                 Sample.world_v1 "prioritization" (Sample.prioritization_reply "v1")).
  simpl in H.
  destruct (insert_values (Sample.prioritization_reply "v1") VNone) eqn:Hrow;
    [ | vm_compute in Hrow; discriminate Hrow ].
  apply H.
  - vm_compute. do 13 right. left. reflexivity.
  - reflexivity.
Defined.

(** ** The order of the nodes *)

Lemma entered_app l1 l2 : entered (l1 ++ l2) = entered l1 ++ entered l2.
Proof. apply flat_map_app. Qed.

Lemma invoked_app l1 l2 : invoked (l1 ++ l2) = invoked l1 ++ invoked l2.
Proof. apply flat_map_app. Qed.

Lemma entered_done_log cs : entered (done_log cs) = map fst cs.
Proof.
  induction cs as [ | [n c] cs IH]; [ reflexivity | ].
  simpl. now rewrite <- IH.
Qed.

Lemma invoked_done_log cs : invoked (done_log cs) = map fst cs.
Proof.
  induction cs as [ | [n c] cs IH]; [ reflexivity | ].
  simpl. now rewrite <- IH.
Qed.

Lemma quiet_fetch_prefix k :
  entered (firstn k fetch_events) = [] /\ invoked (firstn k fetch_events) = [].
Proof. do 7 (destruct k as [ | k]; [ split; reflexivity | ]). split; reflexivity. Qed.

(** X12.  In every run, whatever the replies and however it ends, the
    nodes start in the order of the graph: the nodes that have started are
    an initial part of extraction, normalization, QA, prioritization, save,
    or they are extraction, normalization, QA, rejection.  The service is
    called by the agents only, in that same order, at most once each, and
    only the node that started last may not have called it yet. *)
Theorem nodes_run_in_order E t tid w :
  let l := log_of (run_pipeline E t tid w) in
  ((exists k, entered l = firstn k [extraction; normalization; qa; prioritization; save]) \/
   entered l = [extraction; normalization; qa; rejection]) /\
  exists j, invoked l = firstn j agents /\
            invoked l = firstn j (entered l) /\
            length (entered l) <= S j.
Proof.
  simpl. destruct (run_pipeline E t tid w) as [[r w'] l] eqn:Hrun.
  unfold log_of. simpl.
  apply run_pipeline_shape in Hrun.
  inversion Hrun; subst; clear Hrun.
  all: repeat rewrite entered_app; repeat rewrite invoked_app.
  all: repeat rewrite entered_done_log; repeat rewrite invoked_done_log.
  all: try match goal with
       | |- context [firstn ?k fetch_events] =>
           destruct (quiet_fetch_prefix k) as [-> ->]
       end.
  all: change (entered fetch_events) with (@nil node);
       change (invoked fetch_events) with (@nil node).
  all: try match goal with H : map fst _ = _ |- _ => rewrite H end.
  - split; [ left; exists 0%nat; reflexivity | ].
    exists 0%nat. simpl. auto.
  - match goal with
    | Hn : nth_error agents ?k = Some ?n |- _ =>
        rename Hn into Hnth; rename k into kk; rename n into nn
    end.
    destruct kk as [ | [ | [ | [ | kk]]]];
      try (destruct kk; discriminate Hnth); inversion Hnth; subst nn.
    all: match goal with
         | H : _ \/ _ |- _ => destruct H as [-> | (c & -> & _)]
         end; simpl.
    all: split; [ left; first [ exists 1%nat; reflexivity | exists 2%nat; reflexivity
                              | exists 3%nat; reflexivity | exists 4%nat; reflexivity ] | ].
    all: first [ exists 0%nat; simpl; repeat split; auto; fail
               | exists 1%nat; simpl; repeat split; auto; fail
               | exists 2%nat; simpl; repeat split; auto; fail
               | exists 3%nat; simpl; repeat split; auto; fail
               | exists 4%nat; simpl; repeat split; auto; fail ].
  - simpl. split; [ right; reflexivity | ].
    exists 3%nat. simpl. auto.
  - simpl. split; [ left; exists 5%nat; reflexivity | ].
    exists 4%nat. simpl. auto.
  - simpl. split; [ left; exists 5%nat; reflexivity | ].
    exists 4%nat. simpl. auto.
Qed.

(** ** The recursion limit *)

Lemma run_from_split E fuel s w :
  5 <= fuel ->
  run_from (build_pipeline_graph E) fuel extraction s w
  = bind (stages_to_qa E s) (stages_after_qa E) w.
Proof.
  intros Hfuel.
  do 5 (destruct fuel as [ | fuel]; [ lia | ]). clear Hfuel.
  unfold stages_to_qa. simpl.
  rewrite !bind_assoc. apply bind_ext. intros s1 w1.
  rewrite !bind_assoc. apply bind_ext. intros s2 w2.
  apply bind_ext. intros s3 w3.
  unfold stages_after_qa, qa_router.
  destruct (status_eqb (status s3) rejected); simpl.
  - apply bind_ret_r.
  - apply bind_ext. intros s4 w4. apply bind_ret_r.
Qed.

(** X13.  The graph has no cycle and its longest path has five nodes, so
    the recursion limit plays no part: with any limit of five steps or
    more the graph run from extraction is the run under the limit of
    twenty-five that [invoke] applies. *)
Theorem recursion_limit_plays_no_part E fuel s w :
  5 <= fuel ->
  run_from (build_pipeline_graph E) fuel extraction s w
  = invoke (build_pipeline_graph E) s w.
Proof.
  intros Hfuel. rewrite invoke_split. apply run_from_split. exact Hfuel.
Qed.

Lemma recursion_limit_plays_no_part_witness :
  5 <= 5 /\
  run_from (build_pipeline_graph Sample.env_lossy) 5 extraction Sample.s0 Sample.world_v1
  = invoke (build_pipeline_graph Sample.env_lossy) Sample.s0 Sample.world_v1.
Proof.
  split; [ lia | ].
  apply (recursion_limit_plays_no_part Sample.env_lossy 5 Sample.s0 Sample.world_v1).
  lia.
Defined.

(** ** The request handler *)

(** X14.  The handler has three outcomes, one for each outcome of the
    run, and it adds nothing to what the run did to the world.  A
    completed run is answered with the run's result as it is.  A rejected
    run is answered by returning, not raising, an exception object of
    status 422 whose detail is the run's result as it is.  A run that
    raised, whatever the exception, surfaces as [NameError]: neither of the
    two handlers that would turn it into a response of status 500 is ever
    entered. *)
Theorem process_transcript_outcomes E t tid w :
  let run := run_pipeline E t tid w in
  let out := process_transcript E t tid w in
  snd (fst out) = world_of run /\ snd out = log_of run /\
  match res_of run with
  | OK v =>
      (is_completed (OK v) /\ fst (fst out) = Returns v) \/
      (is_rejected (OK v) /\ fst (fst out) = ReturnsHTTPException 422 v)
  | Err _ => fst (fst out) = Raises (NameError "json")
  end.
Proof.
  simpl. unfold process_transcript.
  destruct (run_pipeline E t tid w) as [[r w'] l] eqn:Hrun.
  unfold res_of, world_of, log_of. simpl.
  apply run_pipeline_shape in Hrun.
  inversion Hrun; subst; clear Hrun; simpl; repeat split.
  - right. split; [ eexists; eexists; reflexivity | reflexivity ].
  - left. split; [ eexists; eexists; reflexivity | reflexivity ].
Qed.

(** ** The test script *)

(** One case moves exactly one counter; a case counted as passed has
    added a row, a rejected one has left the store alone, and a failed one
    has added at most one row. *)
Lemma test_case_counts E c t w :
  let c' := fst (test_case E c t w) in
  let w' := snd (test_case E c t w) in
  (c' = count_passed c /\
   length (tasks (db w')) = S (length (tasks (db w)))) \/
  (c' = count_rejected c /\ db w' = db w) \/
  (c' = count_failed c /\
   length (tasks (db w)) <= length (tasks (db w')) <= S (length (tasks (db w)))).
Proof.
  simpl. unfold test_case.
  destruct (run_pipeline E t VNone w) as [[r w'] l] eqn:Hrun.
  apply run_pipeline_shape in Hrun.
  inversion Hrun; subst; clear Hrun; simpl.
  - right. right. split; [ reflexivity | lia ].
  - right. right. split; [ reflexivity | ].
    match goal with H : db _ = db _ |- _ => rewrite H end. lia.
  - right. left. split; [ reflexivity | assumption ].
  - right. right. split; [ reflexivity | ].
    match goal with H : db _ = db _ |- _ => rewrite H end. lia.
  - match goal with H : db _ = insert_task _ _ |- _ => rewrite H end.
    simpl. rewrite length_app. simpl.
    destruct (report_completed _).
    + left. split; [ reflexivity | lia ].
    + right. right. split; [ reflexivity | lia ].
Qed.

Lemma test_counters_add_up_aux E cases : forall c w,
  total (fst (run_test_cases E cases c w)) = total c + length cases.
Proof.
  induction cases as [ | t rest IH]; intros c w; simpl.
  - unfold total. lia.
  - pose proof (test_case_counts E c t w) as Hcase. simpl in Hcase.
    destruct (test_case E c t w) as [c1 w1]. simpl in Hcase.
    rewrite IH. unfold total.
    destruct Hcase as [[-> _] | [[-> _] | [-> _]]]; simpl; lia.
Qed.

(** X15.  The counters of the test script add up: after any list of
    cases the three counters have grown, together, by the number of cases
    (every case is counted once, none is skipped by the two tests on the
    status), and the rows the cases added to the store are at least the
    cases counted as passed and at most those counted as passed or
    failed. *)
Theorem test_counters_add_up E cases : forall c w,
  let c' := fst (run_test_cases E cases c w) in
  let w' := snd (run_test_cases E cases c w) in
  total c' = total c + length cases /\
  passed c <= passed c' /\ failed c <= failed c' /\
  rejected_count c <= rejected_count c' /\
  length (tasks (db w)) + (passed c' - passed c) <= length (tasks (db w')) /\
  length (tasks (db w')) <=
    length (tasks (db w)) + (passed c' - passed c) + (failed c' - failed c).
Proof.
  induction cases as [ | t rest IH]; intros c w; simpl.
  - unfold total. repeat split; lia.
  - pose proof (test_case_counts E c t w) as Hcase. simpl in Hcase.
    destruct (test_case E c t w) as [c1 w1]. simpl in Hcase.
    specialize (IH c1 w1). simpl in IH.
    destruct (run_test_cases E rest c1 w1) as [c2 w2]. simpl in IH |- *.
    destruct IH as (Ht & Hp & Hf & Hr & Hlo & Hhi).
    unfold total in *.
    destruct Hcase as [[-> Hw] | [[-> Hw] | [-> Hw]]]; simpl in *;
      try rewrite Hw in *; repeat split; lia.
Qed.

(** X16.  The script exits with 0 exactly when each of its five cases
    ended as passed or as rejected; a rejection, expected of the last case
    only, is never told apart from one that was not expected. *)
Theorem test_exit_code E w :
  let code := fst (fst (test_extraction E w)) in
  let c := snd (fst (test_extraction E w)) in
  (code = 0%Z \/ code = 1%Z) /\
  (code = 0%Z <-> passed c + rejected_count c = 5) /\
  total c = 5.
Proof.
  simpl. unfold test_extraction.
  pose proof (test_counters_add_up_aux E test_cases
                {| passed := 0; failed := 0; rejected_count := 0 |} w) as Ht.
  destruct (run_test_cases E test_cases _ w) as [c w']. simpl in Ht |- *.
  unfold total in *. simpl in Ht.
  destruct (Nat.eqb_spec (failed c) 0) as [H0 | H0]; simpl.
  - split; [ left; reflexivity | ]. split; [ | lia ]. split; [ lia | reflexivity ].
  - split; [ right; reflexivity | ]. split; [ | lia ].
    split; [ discriminate | lia ].
Qed.

Lemma run_pipeline_offline E t tid w :
  online (db w) = false -> run_pipeline E t tid w = (Err OperationalError, w, []).
Proof.
  intros Hoff. unfold run_pipeline, fetch_initial_state.
  unfold bind at 1. unfold bind at 1.
  assert (Hc : fetch_db_context w = (Err OperationalError, w, [])).
  { unfold fetch_db_context, get_db_connection, bind, get_db, emit, ret, raise.
    rewrite Hoff. reflexivity. }
  rewrite Hc. reflexivity.
Qed.

(** X17.  With a store that cannot be reached nothing is tested: every
    case is counted as failed, whatever the transcripts and the service,
    the world is left as it was, and the script exits with 1. *)
Theorem test_against_unreachable_store E w :
  online (db w) = false ->
  (forall cases c,
     run_test_cases E cases c w
     = ({| passed := passed c; failed := failed c + length cases;
           rejected_count := rejected_count c |}, w)) /\
  test_extraction E w
  = (1%Z, {| passed := 0; failed := 5; rejected_count := 0 |}, w).
Proof.
  intros Hoff.
  assert (Hall : forall cases c,
            run_test_cases E cases c w
            = ({| passed := passed c; failed := failed c + length cases;
                  rejected_count := rejected_count c |}, w)).
  { induction cases as [ | t rest IH]; intros c; simpl.
    - rewrite Nat.add_0_r. now destruct c.
    - unfold test_case. rewrite (run_pipeline_offline E t VNone w Hoff).
      rewrite IH. simpl. f_equal. f_equal. lia. }
  split; [ exact Hall | ].
  unfold test_extraction. rewrite Hall. reflexivity.
Qed.

Lemma test_against_unreachable_store_witness :
  test_extraction Sample.env_lossy Sample.world_offline
  = (1%Z, {| passed := 0; failed := 5; rejected_count := 0 |}, Sample.world_offline).
Proof.
  apply (test_against_unreachable_store Sample.env_lossy Sample.world_offline).
  reflexivity.
Defined.

(** ** The inputs of a run *)

Section Inputs.

Variable E : env.

Lemma node_keeps_inputs n s w s' w' l :
  node_fn (build_pipeline_graph E) n s w = (OK s', w', l) -> same_inputs s s'.
Proof.
  intros Hrun. unfold same_inputs. destruct n; simpl in Hrun.
  - apply extraction_node_spec in Hrun. destruct Hrun as [_ Ho].
    apply agent_outcome_ok in Ho.
    destruct Ho as (c & v & _ & _ & (ch & pv & ts & _ & _ & -> & _)).
    simpl. auto 10.
  - apply normalization_node_spec in Hrun. destruct Hrun as [_ Ho].
    apply agent_outcome_ok in Ho.
    destruct Ho as (c & v & _ & _ & (ch & pv & ts & _ & _ & -> & _)).
    simpl. auto 10.
  - apply qa_node_spec in Hrun. destruct Hrun as [_ Ho].
    apply agent_outcome_ok in Ho.
    destruct Ho as (c & v & _ & _ & (d & -> & Hq)).
    destruct (py_eq_str (get_or d "qa_decision" VNone) "rejected").
    + subst s'. simpl. auto 10.
    + destruct Hq as (bd & _ & ->). unfold qa_accepted_state.
      destruct (dict_get d "validated_task"); simpl; auto 10.
  - apply prioritization_node_spec in Hrun. destruct Hrun as [_ Ho].
    apply agent_outcome_ok in Ho.
    destruct Ho as (c & v & _ & _ & ->). simpl. auto 10.
  - rewrite save_node_spec in Hrun.
    destruct (online (db w)); [ | discriminate Hrun ].
    destruct (insert_values (final_task s) (transcript_id s)); [ | discriminate Hrun ].
    inversion Hrun; subst. simpl. auto 10.
  - rewrite rejection_node_spec in Hrun. inversion Hrun; subst. auto 10.
Qed.

Lemma reachable_keeps_inputs s0 w0 n s w :
  config_reachable (build_pipeline_graph E) s0 w0 n s w -> same_inputs s0 s.
Proof.
  intros Hreach. induction Hreach as [ | n s w s' w' l n' _ IH Hrun _].
  - unfold same_inputs. auto 10.
  - apply node_keeps_inputs in Hrun. unfold same_inputs in *.
    destruct IH as (? & ? & ? & ? & ? & ?). destruct Hrun as (? & ? & ? & ? & ? & ?).
    repeat split; congruence.
Qed.

(** X18.  No node writes the inputs of a run.  In every state of a run
    the transcript, its identifier, the grounding context, the policy
    snapshot and the weights are the ones the run started with; and the
    state's own [lineage_metadata], which no node reads or writes, is the
    empty record it was initialised to: the lineage lives inside the
    payloads only. *)
Theorem inputs_are_never_rewritten t tid dbc pol pw w0 x :
  run_state (build_pipeline_graph E) (initial_state t tid dbc pol pw) w0 x ->
  transcript x = t /\ transcript_id x = tid /\ db_context x = dbc /\
  policy_snapshot x = pol /\ priority_weights x = pw /\
  lineage_metadata x = VDict [].
Proof.
  intros [-> | (n & s & w & w' & l & Hreach & Hrun)].
  - simpl. auto 10.
  - apply reachable_keeps_inputs in Hreach. apply node_keeps_inputs in Hrun.
    unfold same_inputs in *. simpl in Hreach.
    destruct Hreach as (? & ? & ? & ? & ? & ?). destruct Hrun as (? & ? & ? & ? & ? & ?).
    repeat split; congruence.
Qed.

End Inputs.

Lemma inputs_are_never_rewritten_witness :
  policy_snapshot (fst (Sample.at_normalization Sample.env_lossy))
  = policy_snapshot Sample.s0.
Proof.
  apply (inputs_are_never_rewritten Sample.env_lossy Sample.transcript VNone (VDict [])
           (VDict [("policy_version", VStr "v1"); ("rules", VDict [])]) (VList [])
           Sample.world_v1 (fst (Sample.at_normalization Sample.env_lossy))).
  right. exists extraction, Sample.s0, Sample.world_v1.
  eexists. eexists. split; [ apply reach_entry | ].
  vm_compute. reflexivity.
Defined.

(** ** Who reads the transcript *)

Lemma on_state_bind {A} f (m : M A) (k : A -> M PipelineState) w :
  on_state f (bind m k w) = bind m (fun a w1 => on_state f (k a w1)) w.
Proof.
  unfold bind. destruct (m w) as [[[a | e] w1] l1]; [ | reflexivity ].
  destruct (k a w1) as [[[s | e] w2] l2]; reflexivity.
Qed.

Ltac through_binds :=
  repeat (rewrite on_state_bind; apply bind_ext; intros ? ?).

(** X19.  Extraction is the only node that reads the transcript.  Run
    on a state that differs in the transcript alone, every other node
    sends the same prompts, stores the same row and ends in the same way,
    and the state it returns differs in the transcript alone. *)
Theorem later_stages_never_read_the_transcript E n t' s w :
  n <> extraction ->
  node_fn (build_pipeline_graph E) n (set_transcript t' s) w
  = on_state (set_transcript t') (node_fn (build_pipeline_graph E) n s w).
Proof.
  intros Hn. destruct n; try congruence; simpl.
  - unfold normalization_node. through_binds. reflexivity.
  - unfold qa_node. through_binds.
    match goal with |- context [py_eq_str ?a ?b] => destruct (py_eq_str a b) end.
    + through_binds. reflexivity.
    + through_binds.
      match goal with |- (if ?b then _ else _) _ = _ => destruct b end.
      * through_binds. reflexivity.
      * reflexivity.
  - unfold prioritization_node. through_binds. reflexivity.
  - unfold save_node. through_binds. reflexivity.
  - reflexivity.
Qed.

Lemma later_stages_never_read_the_transcript_witness :
  qa_node Sample.env_lossy (set_transcript "another" Sample.s0) Sample.world_v1
  = on_state (set_transcript "another")
      (qa_node Sample.env_lossy Sample.s0 Sample.world_v1).
Proof.
  apply (later_stages_never_read_the_transcript Sample.env_lossy qa "another"
           Sample.s0 Sample.world_v1).
  discriminate.
Defined.

(** ** What the context shows of a table *)



